(** * prusacam.py: webcam poll loop for Prusa Connect

    A shallow embedding of [src/prusacam.py].  The script talks to a camera,
    a printer's status endpoint, a cloud endpoint, a console and one image
    folder.  All of these are external; they are modelled by an environment
    [env] of scripted replies and by a [world] that records the folder's
    content, a clock and the calls made so far.  Python exceptions are values
    of [exn]; a computation is a function from the world to a result and the
    world it leaves behind, so that the state survives a raised exception as
    it does in Python. *)

From Stdlib Require Import ZArith List String Ascii Bool Lia Permutation Sorted.
Import ListNotations.
Local Open Scope string_scope.
Local Open Scope Z_scope.

(* ================================================================== *)
(** ** Exceptions and results *)

Inductive exn : Type :=
| KeyError (key : string)
| IndexError
| TypeError
| ValueError
| UnboundLocalError (name : string)
| FileExistsError
| FileNotFoundError
| NotADirectoryError
| OverflowError
| ConnectionError
| EOFError
| RequestException      (* requests: the endpoint cannot be reached *)
| JSONDecodeError       (* json.loads: the body is not JSON *)
| Cv2Error.             (* cv2.error *)

Inductive result (A : Type) : Type :=
| Ok (a : A)
| Raise (e : exn).
Arguments Ok {A} a.
Arguments Raise {A} e.


(* ================================================================== *)
(** ** Strings as Python uses them here *)

Module Py.

(** [sub in s] on [str]. *)
Fixpoint contains (sub s : string) : bool :=
  String.prefix sub s
  || match s with
     | EmptyString => false
     | String _ s' => contains sub s'
     end.

(** ASCII white space, what [str.strip] removes at both ends. *)
Definition is_space (c : ascii) : bool :=
  let n := nat_of_ascii c in
  ((9 <=? n) && (n <=? 13) || (28 <=? n) && (n <=? 32))%nat.

Fixpoint lstrip (s : string) : string :=
  match s with
  | EmptyString => EmptyString
  | String c s' => if is_space c then lstrip s' else s
  end.

(** Right strip: a character is dropped when it is white space and all
    that follows it was dropped. *)
Fixpoint rstrip (s : string) : string :=
  match s with
  | EmptyString => EmptyString
  | String c s' =>
      match rstrip s' with
      | EmptyString => if is_space c then EmptyString else String c EmptyString
      | t => String c t
      end
  end.

Definition strip (s : string) : string := rstrip (lstrip s).

Definition lower_ascii (c : ascii) : ascii :=
  let n := nat_of_ascii c in
  if ((65 <=? n) && (n <=? 90))%nat then ascii_of_nat (n + 32) else c.

Fixpoint lower (s : string) : string :=
  match s with
  | EmptyString => EmptyString
  | String c s' => String (lower_ascii c) (lower s')
  end.

(** [l[0:stop]] with Python's treatment of a negative or too large
    [stop]: a negative bound counts from the end, and both are clamped
    to the list. *)
Definition slice_to {A} (l : list A) (stop : Z) : list A :=
  let n := Z.of_nat (List.length l) in
  let stop' := if stop <? 0 then Z.max 0 (stop + n) else Z.min stop n in
  firstn (Z.to_nat stop') l.

(** [l[i]] on a list: negative indices count from the end. *)
Definition list_getitem {A} (l : list A) (i : Z) : result A :=
  let n := Z.of_nat (List.length l) in
  let j := if i <? 0 then i + n else i in
  if (j <? 0) || (n <=? j) then Raise IndexError
  else match nth_error l (Z.to_nat j) with
       | Some a => Ok a
       | None => Raise IndexError
       end.

(** [sorted(l, key=key)]: Python's sort is stable, so the result is the
    one a stable insertion sort gives.  The list is folded from its end,
    so an element goes before the elements of equal key already placed. *)
Section Sorted.
Context {A : Type} (key : A -> Z).

Fixpoint insert (a : A) (l : list A) : list A :=
  match l with
  | [] => [a]
  | b :: l' => if key a <=? key b then a :: l else b :: insert a l'
  end.

Definition sorted (l : list A) : list A :=
  fold_right insert [] l.

(** The order [sorted] establishes. *)
Definition key_le (a b : A) : Prop := key a <= key b.
End Sorted.

(** A finite [float]: the binary64 number [mant * 2 ^ expo]. *)
Record double : Type := mkDouble { mant : Z; expo : Z }.

(** [a] over [d] with the binary point moved by [e] places. *)
Definition scaled (a d e : Z) : Z * Z :=
  if 0 <=? e then (a, d * 2 ^ e) else (a * 2 ^ (- e), d).

(** The binary64 number nearest to [a / d] for positive [a] and [d], ties
    to even, as mantissa and exponent: the exponent is the one that leaves
    53 bits before the point, the mantissa is the quotient rounded.  The
    quotients met here are at least 1/90, far above the subnormal range. *)
Definition round_quotient (a d : Z) : Z * Z :=
  let e0 := Z.log2 a - Z.log2 d - 53 in
  let e := if fst (scaled a d e0) / snd (scaled a d e0) <? 2 ^ 53 then e0 else e0 + 1 in
  let n := fst (scaled a d e) in
  let dd := snd (scaled a d e) in
  let q := n / dd in
  let r := n mod dd in
  let m := if (dd <? 2 * r) || ((2 * r =? dd) && Z.odd q) then q + 1 else q in
  (m, e).

(** [n / d] on two [int]s with [d] positive: the quotient correctly
    rounded, or [OverflowError] when it is beyond the largest [float]. *)
Definition true_div (n d : Z) : result double :=
  if n =? 0 then Ok (mkDouble 0 0)
  else
    let (m, e) := round_quotient (Z.abs n) d in
    if (0 <=? e) && (2 ^ 1024 <=? m * 2 ^ e) then Raise OverflowError
    else Ok (mkDouble (Z.sgn n * m) e).

(** [int(x)]: the integer part, towards zero. *)
Definition int_of_double (x : double) : Z :=
  if 0 <=? expo x then mant x * 2 ^ expo x
  else Z.quot (mant x) (2 ^ (- expo x)).

(** [k == x] between an [int] and a [float]: the comparison is exact. *)
Definition int_eq_double (k : Z) (x : double) : bool :=
  if 0 <=? expo x then k =? mant x * 2 ^ expo x
  else k * 2 ^ (- expo x) =? mant x.

(** [float(text)] for a text that [int] reads as [z]: the nearest
    [float], or infinity ([None]) beyond the largest one. *)
Definition float_of_int_text (z : Z) : option double :=
  match true_div z 1 with
  | Ok x => Some x
  | Raise _ => None
  end.

End Py.

(* ================================================================== *)
(** ** Parsed JSON, as [json.loads] returns it *)

(** Numbers are the integers; a JSON number with a fraction is outside the
    embedding. *)
#[local] Set Warnings "-register-all".
Inductive json : Type :=
| JNull
| JBool (b : bool)
| JInt (z : Z)
| JStr (s : string)
| JArr (items : list json)
| JObj (members : list (string * json)).

(** A later member with the same key replaces an earlier one. *)
Fixpoint dict_get (key : string) (members : list (string * json)) : option json :=
  match members with
  | [] => None
  | (k, v) :: rest =>
      match dict_get key rest with
      | Some v' => Some v'
      | None => if String.eqb k key then Some v else None
      end
  end.

(** [j[key]] with a string key. *)
Definition getitem (j : json) (key : string) : result json :=
  match j with
  | JObj members =>
      match dict_get key members with
      | Some v => Ok v
      | None => Raise (KeyError key)
      end
  | _ => Raise TypeError
  end.

(** [j == "PRINTING"]: only the string itself compares equal. *)
Definition is_printing (j : json) : bool :=
  match j with
  | JStr s => String.eqb s "PRINTING"
  | _ => false
  end.

(* ================================================================== *)
(** ** The outside world *)

(** What [cv2.rotate] accepts as its second argument. *)
Inductive rotate_code : Type :=
| ROTATE_90_CLOCKWISE
| ROTATE_180
| ROTATE_90_COUNTERCLOCKWISE.

(** A frame is opaque data from the sensor; [cv2.rotate] is an external
    primitive and is kept symbolic. *)
Inductive image : Type :=
| Frame (id : nat)
| Rotated (img : image) (code : rotate_code).

Definition cv2_rotate (frame : image) (code : rotate_code) : image :=
  Rotated frame code.

(** [camera_id : int | str]. *)
Inductive camera_id : Type :=
| CamIndex (i : Z)
| CamPath (p : string).

(** How one [cv2.VideoCapture] handle behaves. *)
Record capture : Type := mkCapture {
  isOpened : bool;
  read : option image;        (* [Some frame] for [(True, frame)], [None] for [(False, None)] *)
  release_raises : bool
}.

(** An entry of the image folder: [path] is [str(img)], the folder joined
    with the file name; [ctime] is [os.path.getctime]; the folder is flat
    and holds regular files. *)
Record entry : Type := mkEntry {
  path : string;
  ctime : Z;
  data : image
}.

Inductive path_kind : Type := Missing | RegularFile | Directory.

(** Calls that leave the process. *)
Inductive event : Type :=
| CallVideoCapture (id : camera_id)
| CallRead
| CallRelease
| CallImwrite (p : string) (img : image)
| CallGetStatus
| CallPut (p : string) (body : image)
| CallSleep (secs : Z)
| CallRemove (p : string)
| CallChdir (p : string)
| CallMkdir.

Record world : Type := mkWorld {
  folder : path_kind;         (* what is at the image folder's path *)
  files : list entry;         (* the folder's entries, in [iterdir] order *)
  clock : Z;                  (* seconds *)
  stdin : list string;        (* lines the operator will type *)
  calls : list event;         (* most recent first *)
  opened : nat;               (* handles opened so far *)
  queried : nat;              (* status queries issued so far *)
  uploaded : nat              (* uploads issued so far *)
}.

(** Scripted replies of the collaborators, indexed by the number of earlier
    calls of the same kind.  [status_reply] is the outcome of [requests.get]
    followed by [json.loads]: the parsed body, or the exception either
    raised.  [verifyCamera] stands for [CameraTester.verifyCamera], a module
    of the repository that is not part of the sources at hand. *)
Record env : Type := mkEnv {
  VideoCapture : camera_id -> nat -> capture;
  status_reply : nat -> result json;
  put_reply : nat -> result unit;
  strftime : Z -> string;
  verifyCamera : json -> bool
}.

Definition set_folder (k : path_kind) (w : world) : world :=
  mkWorld k (files w) (clock w) (stdin w) (calls w) (opened w) (queried w) (uploaded w).
Definition set_files (l : list entry) (w : world) : world :=
  mkWorld (folder w) l (clock w) (stdin w) (calls w) (opened w) (queried w) (uploaded w).
Definition set_clock (t : Z) (w : world) : world :=
  mkWorld (folder w) (files w) t (stdin w) (calls w) (opened w) (queried w) (uploaded w).
Definition set_stdin (l : list string) (w : world) : world :=
  mkWorld (folder w) (files w) (clock w) l (calls w) (opened w) (queried w) (uploaded w).
Definition log (e : event) (w : world) : world :=
  mkWorld (folder w) (files w) (clock w) (stdin w) (e :: calls w) (opened w) (queried w) (uploaded w).
Definition tick_opened (w : world) : world :=
  mkWorld (folder w) (files w) (clock w) (stdin w) (calls w) (S (opened w)) (queried w) (uploaded w).
Definition tick_queried (w : world) : world :=
  mkWorld (folder w) (files w) (clock w) (stdin w) (calls w) (opened w) (S (queried w)) (uploaded w).
Definition tick_uploaded (w : world) : world :=
  mkWorld (folder w) (files w) (clock w) (stdin w) (calls w) (opened w) (queried w) (S (uploaded w)).

(* ================================================================== *)
(** ** Computations: state that survives exceptions *)

Definition M (A : Type) : Type := world -> result A * world.

Definition ret {A} (a : A) : M A := fun w => (Ok a, w).
Definition raise {A} (e : exn) : M A := fun w => (Raise e, w).
Definition bind {A B} (c : M A) (k : A -> M B) : M B :=
  fun w =>
    match c w with
    | (Ok a, w') => k a w'
    | (Raise e, w') => (Raise e, w')
    end.
(** [try: c except: ...] with a bare [except]: the outcome is handed to the
    continuation, nothing propagates. *)
Definition try {A} (c : M A) : M (result A) :=
  fun w => let (r, w') := c w in (Ok r, w').
Definition lift {A} (r : result A) : M A := fun w => (r, w).

Declare Scope py_scope.
Delimit Scope py_scope with py.
Notation "x <- c ;; k" := (bind c (fun x => k))
  (at level 61, c at next level, right associativity) : py_scope.
Notation "c ;; k" := (bind c (fun _ => k))
  (at level 61, right associativity) : py_scope.
Local Open Scope py_scope.

(** Reading a local variable that one branch may have left unassigned. *)
Definition local {A} (name : string) (v : option A) : M A :=
  match v with
  | Some a => ret a
  | None => raise (UnboundLocalError name)
  end.

(* ================================================================== *)
(** ** Primitives of the collaborators *)

Section Program.
Variable E : env.

Definition cv2_VideoCapture (id : camera_id) : M capture :=
  fun w => (Ok (VideoCapture E id (opened w)), log (CallVideoCapture id) (tick_opened w)).

Definition cap_read (cap : capture) : M (option image) :=
  fun w => (Ok (read cap), log CallRead w).

Definition cap_release (cap : capture) : M unit :=
  fun w => (if release_raises cap then Raise Cv2Error else Ok tt, log CallRelease w).

(** [datetime.datetime.now().strftime('%Y-%m-%d_%H_%M_%S')]. *)
Definition datetime_now : M string :=
  fun w => (Ok (strftime E (clock w)), w).

(** [folder/name] on a [pathlib.Path], as [str] shows it. *)
Definition path_join (dir name : string) : string := dir ++ "/" ++ name.

(** Creating a file, or replacing the one that has the same path. *)
Fixpoint write_file (e : entry) (l : list entry) : list entry :=
  match l with
  | [] => [e]
  | x :: l' => if String.eqb (path x) (path e) then e :: l' else x :: write_file e l'
  end.

(** [cv2.imwrite]; the write is taken to succeed, and the file's creation
    time is the clock's. *)
Definition cv2_imwrite (p : string) (img : image) : M unit :=
  fun w => (Ok tt, log (CallImwrite p img)
                       (set_files (write_file (mkEntry p (clock w) img) (files w)) w)).

Definition find_file (p : string) (l : list entry) : option entry :=
  find (fun e => String.eqb (path e) p) l.

Definition os_remove (p : string) : M unit :=
  fun w =>
    match find_file p (files w) with
    | Some _ =>
        (Ok tt, log (CallRemove p)
                    (set_files (filter (fun e => negb (String.eqb (path e) p)) (files w)) w))
    | None => (Raise FileNotFoundError, log (CallRemove p) w)
    end.

Definition time_sleep (secs : Z) : M unit :=
  fun w => (Ok tt, log (CallSleep secs) (set_clock (clock w + secs) w)).

(** [input(...)] in the confirmation loop of [selectCamera]: lines are
    read until one is an answer; at the end of the input [input] raises. *)
Fixpoint answer (lines : list string) : result bool * list string :=
  match lines with
  | [] => (Raise EOFError, [])
  | inp :: rest =>
      let a := Py.lower (Py.strip inp) in
      if String.eqb a "y" || String.eqb a "yes" then (Ok true, rest)
      else if String.eqb a "n" || String.eqb a "no" then (Ok false, rest)
      else answer rest
  end.

Definition ask_light_on : M bool :=
  fun w => let (r, rest) := answer (stdin w) in (r, set_stdin rest w).

(* ================================================================ *)
(** ** The functions of prusacam.py *)

(** [putImage]: the file is read, then sent; the token travels in the
    headers only and is not modelled; the response is returned and never
    looked at, so the model returns nothing. *)
Definition putImage (fingerprint img_path : string) : M unit :=
  fun w =>
    match find_file img_path (files w) with
    | None => (Raise FileNotFoundError, w)
    | Some f =>
        (put_reply E (uploaded w), log (CallPut img_path (data f)) (tick_uploaded w))
    end.

Definition getPrinterStatus : M json :=
  fun w => (status_reply E (queried w), log CallGetStatus (tick_queried w)).

(** [captureImage].  The local [img_path] is assigned only where a frame
    was read; [None] is the unassigned variable.  The [print] of line 97
    sits under [if cap.isOpened()] but outside [if ret == True], and
    [return None] sits inside the [except] clause. *)
Definition captureImage (id : camera_id) (fingerprint imgs_folder : string)
           (rotation : option rotate_code) : M (option string) :=
  cap <- cv2_VideoCapture id ;;
  img_path <-
    (if isOpened cap then
       ret_frame <- cap_read cap ;;
       img_path <-
         match ret_frame with
         | Some frame =>
             now <- datetime_now ;;
             let file_name := fingerprint ++ "_" ++ now ++ ".jpg" in
             let img_path := path_join imgs_folder file_name in
             let frame := match rotation with
                          | Some code => cv2_rotate frame code
                          | None => frame
                          end in
             cv2_imwrite img_path frame ;;
             ret (Some img_path)
         | None => ret None
         end ;;
       local "img_path" img_path ;;          (* print(... {img_path.name}) *)
       ret img_path
     else ret None) ;;                       (* print("Video Capture not opened ...") *)
  released <- try (cap_release cap) ;;
  match released with
  | Raise _ => ret None                      (* except: pass; return None *)
  | Ok _ => p <- local "img_path" img_path ;; ret (Some p)
  end.

(** [selectCamera]: [camera_id] is -1 at the start of every round of the
    [for], since the loop is left as soon as it is set. *)
Fixpoint select_from (indices : list Z) : M Z :=
  match indices with
  | [] => ret (-1)
  | i :: rest =>
      cap <- cv2_VideoCapture (CamIndex i) ;;
      frame <- cap_read cap ;;
      camera_id <- match frame with
                   | Some _ => yes <- ask_light_on ;; ret (if yes : bool then i else -1)
                   | None => ret (-1)
                   end ;;
      cap_release cap ;;
      if camera_id =? -1 then select_from rest else ret camera_id
  end.

Definition range (n : nat) : list Z := map Z.of_nat (seq 0 n).

Definition selectCamera (name : json) : M Z := select_from (range 10).

(** [os.chdir(str(imgs_folder))]: the folder must be there. *)
Definition os_chdir (p : string) : M unit :=
  fun w =>
    match folder w with
    | Directory => (Ok tt, log (CallChdir p) w)
    | Missing => (Raise FileNotFoundError, w)
    | RegularFile => (Raise NotADirectoryError, w)
    end.

Definition is_absolute (p : string) : bool := String.prefix "/" p.

(** [imgs_folder.iterdir()], evaluated after the [chdir].  An absolute path
    still names the image folder.  A relative one is now looked up inside
    the folder itself, which is flat and holds regular files: nothing is
    found there (the text is taken to be normalised and not to be [.]). *)
Definition iterdir (p : string) : M (list entry) :=
  fun w =>
    if is_absolute p
    then match folder w with
         | Directory => (Ok (files w), w)
         | Missing => (Raise FileNotFoundError, w)
         | RegularFile => (Raise NotADirectoryError, w)
         end
    else (Raise FileNotFoundError, w).

(** [deleteImages].  [str(img)] is the whole path, so the two substring
    tests see the folder's name too. *)
Definition matches (fingerprint : string) (img : entry) : bool :=
  Py.contains fingerprint (path img) && Py.contains ".jpg" (path img).

Fixpoint remove_each (imgs : list entry) : M unit :=
  match imgs with
  | [] => ret tt
  | img :: rest => os_remove (path img) ;; remove_each rest
  end.

Definition deleteImages (imgs_folder fingerprint : string) (max_images : Z) : M unit :=
  os_chdir imgs_folder ;;
  entries <- iterdir imgs_folder ;;
  let imgs := Py.sorted ctime entries in
  let filtered := filter (matches fingerprint) imgs in
  if max_images <? Z.of_nat (List.length filtered)
  then remove_each (Py.slice_to filtered (-1 * max_images))
  else ret tt.

(* ================================================================ *)
(** ** Startup: lines 170 to 264 *)

(** What the loop reads of the configuration.  The token, the printer's
    address and its API key only travel to the collaborators, whose
    replies [E] scripts. *)
Record settings : Type := mkSettings {
  fingerprint : string;
  imgs_folder : string;
  image_rotation : option rotate_code;
  max_images : json;
  camera : camera_id
}.

Definition default_max_images : Z := 500.

Definition possible_rot : list (option rotate_code) :=
  [None; Some ROTATE_90_CLOCKWISE; Some ROTATE_180; Some ROTATE_90_COUNTERCLOCKWISE].

(** [if int(r/90) == r/90: possible_rot[int(r/90)] else: raise TypeError],
    with [/] the true division of two [int]s, which yields a [float]. *)
Definition parse_rotation (r : Z) : result (option rotate_code) :=
  match Py.true_div r 90 with
  | Raise e => Raise e
  | Ok x =>
      if Py.int_eq_double (Py.int_of_double x) x
      then Py.list_getitem possible_rot (Py.int_of_double x)
      else Raise TypeError
  end.

(** Lines 228 to 237: [if int(args.rotate) == float(args.rotate)] around
    the same test, with [TypeError] in its [else]. *)
Definition cli_rotation (z : Z) : result (option rotate_code) :=
  if match Py.float_of_int_text z with
     | Some x => Py.int_eq_double z x
     | None => false
     end
  then parse_rotation z
  else Raise TypeError.

(** A command-line value handed to [int]: the default or a text that
    [int] reads as [z], or a text that [int] rejects. *)
Inductive int_arg : Type := IntText (z : Z) | OtherText.

Definition py_int (a : int_arg) : result Z :=
  match a with
  | IntText z => Ok z
  | OtherText => Raise ValueError
  end.

(** A value the script uses as text.  The script does not check the type;
    a configuration file that holds something else there is not covered,
    and the model raises. *)
Definition as_str (j : json) : result string :=
  match j with
  | JStr s => Ok s
  | _ => Raise TypeError
  end.

(** A value the script divides by 90; [bool] is a subtype of [int]. *)
Definition as_number (j : json) : result Z :=
  match j with
  | JInt z => Ok z
  | JBool b => Ok (if b then 1 else 0)
  | _ => Raise TypeError
  end.

Definition required {A} (o : option A) : result A :=
  match o with
  | Some a => Ok a
  | None => Raise TypeError
  end.

Definition and_then {A B} (r : result A) (k : A -> result B) : result B :=
  match r with
  | Ok a => k a
  | Raise e => Raise e
  end.

(** [except KeyError: ...] around a lookup. *)
Definition or_on_KeyError {A} (r : result A) (handler : M A) : M A :=
  match r with
  | Ok a => ret a
  | Raise (KeyError _) => handler
  | Raise e => raise e
  end.

Definition check_fingerprint (fingerprint : string) : M unit :=
  if Z.of_nat (String.length fingerprint) <? 16 then raise ValueError else ret tt.

(** [if exists(): if is_file(): raise ... else: mkdir(parents=True)]. *)
Definition ensure_folder : M unit :=
  fun w =>
    match folder w with
    | Directory => (Ok tt, w)
    | RegularFile => (Raise FileExistsError, w)
    | Missing => (Ok tt, log CallMkdir (set_folder Directory w))
    end.

Record cli_args : Type := mkArgs {
  arg_token : option string;
  arg_name : string;
  arg_fingerprint : option string;
  arg_ip : option string;
  arg_apikey : option string;
  arg_directory : option string;
  arg_maximages : int_arg;
  arg_rotate : int_arg;
  arg_camera : option string
}.

(** Lines 222 to 258. *)
Definition startup_cli (args : cli_args) : M settings :=
  let printer_name := JStr (arg_name args) in
  image_rotation <- lift (and_then (py_int (arg_rotate args)) cli_rotation) ;;
  fingerprint <- lift (required (arg_fingerprint args)) ;;
  check_fingerprint fingerprint ;;
  imgs_folder <- lift (required (arg_directory args)) ;;
  max_images <- lift (py_int (arg_maximages args)) ;;
  ensure_folder ;;
  camera_id <-
    match arg_camera args with
    | None => i <- selectCamera printer_name ;; ret (CamIndex i)
    | Some c =>
        if verifyCamera E (JStr c) then ret (CamPath c) else raise ConnectionError
    end ;;
  ret (mkSettings fingerprint imgs_folder image_rotation (JInt max_images) camera_id).

(** Lines 173 to 218; [config] is what [json.load] returned. *)
Definition startup_json (config : json) : M settings :=
  lift (getitem config "token") ;;
  printer_name <- lift (getitem config "name") ;;
  fingerprint <- lift (and_then (getitem config "fingerprint") as_str) ;;
  check_fingerprint fingerprint ;;
  lift (getitem config "ip") ;;
  lift (getitem config "apikey") ;;
  imgs_folder <- lift (and_then (getitem config "directory") as_str) ;;
  image_rotation <-
    or_on_KeyError
      (and_then (and_then (getitem config "rotate") as_number) parse_rotation)
      (ret None) ;;
  max_images <- or_on_KeyError (getitem config "maximages") (ret (JInt default_max_images)) ;;
  ensure_folder ;;
  camera_id <-
    or_on_KeyError
      (and_then (getitem config "camera")
         (fun c => if verifyCamera E c
                   then and_then (as_str c) (fun s => Ok (CamPath ("/dev/v4l/by-id/" ++ s)))
                   else Raise ConnectionError))
      (i <- selectCamera printer_name ;; ret (CamIndex i)) ;;
  ret (mkSettings fingerprint imgs_folder image_rotation max_images camera_id).

(* ================================================================ *)
(** ** The poll loop: lines 262 to 294 *)

(** [status["printer"]["state"]]. *)
Definition printer_state (status : json) : result json :=
  and_then (getitem status "printer") (fun p => getitem p "state").

(** The body of either inner [while]; the two differ in the argument of
    [time.sleep] only.  [continue] leaves [printer_status] as it was. *)
Definition iteration (s : settings) (secs : Z) (printer_status : json) : M json :=
  status <- try getPrinterStatus ;;
  match status with
  | Raise _ => ret printer_status                              (* except: continue *)
  | Ok status =>
      printer_status <- lift (printer_state status) ;;
      img_path <- captureImage (camera s) (fingerprint s) (imgs_folder s) (image_rotation s) ;;
      match img_path with
      | Some p => putImage (fingerprint s) p
      | None => ret tt
      end ;;
      time_sleep secs ;;
      ret printer_status
  end.

(** Where control stands: at the test of the first inner [while] or at
    the test of the second. *)
Inductive loop_pc : Type := AtPrinting | AtNotPrinting.

(** One evaluation of an inner [while] test, with the body when it holds. *)
Definition step (s : settings) (st : loop_pc * json) : M (loop_pc * json) :=
  let (pc, printer_status) := st in
  match pc with
  | AtPrinting =>
      if is_printing printer_status
      then st' <- iteration s 60 printer_status ;; ret (AtPrinting, st')
      else ret (AtNotPrinting, printer_status)
  | AtNotPrinting =>
      if negb (is_printing printer_status)
      then st' <- iteration s 120 printer_status ;; ret (AtNotPrinting, st')
      else ret (AtPrinting, printer_status)
  end.

(** [while True]: the loop has no exit, so a run is cut after [fuel]
    tests; [Ok] is a loop that is still running, [Raise] a crash. *)
Fixpoint poll_loop (s : settings) (fuel : nat) (st : loop_pc * json) : M (loop_pc * json) :=
  match fuel with
  | O => ret st
  | S fuel' => st' <- step s st ;; poll_loop s fuel' st'
  end.

(** Lines 262 to 264, then the loop. *)
Definition monitor (s : settings) (fuel : nat) : M (loop_pc * json) :=
  status <- getPrinterStatus ;;
  printer_status <- lift (printer_state status) ;;
  poll_loop s fuel (AtPrinting, printer_status).

Definition main_cli (args : cli_args) (fuel : nat) : M (loop_pc * json) :=
  s <- startup_cli args ;; monitor s fuel.

Definition main_json (config : json) (fuel : nat) : M (loop_pc * json) :=
  s <- startup_json config ;; monitor s fuel.

End Program.

(* ================================================================== *)
(** * Vocabulary of the properties *)

(** ** The retention sweeper *)

(** The entries a sweep leaves when it removes the paths of [gone]. *)
Definition is_gone (gone : list entry) (e : entry) : bool :=
  existsb (String.eqb (path e)) (map path gone).

Definition survivors (gone : list entry) (l : list entry) : list entry :=
  filter (fun e => negb (is_gone gone e)) l.

(** The images the sweep counts: the folder by creation time, then the
    names that hold the fingerprint and [.jpg]. *)
Definition counted (fingerprint : string) (w : world) : list entry :=
  filter (matches fingerprint) (Py.sorted ctime (files w)).

(** The images of a fingerprint that are on disk, counted as the sweep
    counts them. *)
Definition on_disk (fingerprint : string) (w : world) : nat :=
  List.length (filter (matches fingerprint) (files w)).

(** [x] stands in [l] at a place before one of [y]. *)
Fixpoint listed_before {A} (l : list A) (x y : A) : Prop :=
  match l with
  | [] => False
  | a :: rest => (a = x /\ In y rest) \/ listed_before rest x y
  end.

(** [x] is older than [y] for the sweep: created earlier, or at the same
    time and listed earlier by the folder. *)
Definition older (w : world) (x y : entry) : Prop :=
  ctime x < ctime y \/ (ctime x = ctime y /\ listed_before (files w) x y).



(** ** The image capturer *)

(** The path [captureImage] writes to in world [w]. *)
Definition img_path_at (E : env) (fingerprint imgs_folder : string) (w : world) : string :=
  path_join imgs_folder (fingerprint ++ "_" ++ strftime E (clock w) ++ ".jpg").

(** What is stored: the frame, rotated when a rotation is configured. *)
Definition stored (rotation : option rotate_code) (frame : image) : image :=
  match rotation with
  | Some code => cv2_rotate frame code
  | None => frame
  end.

(** The rotation a configured angle stands for, as the specification words
    it: the angle modulo a full turn, as 0, 90, 180 or 270 degrees
    clockwise. *)
Definition expected_rotation (r : Z) : option rotate_code :=
  match (r mod 360) / 90 with
  | 0 => None
  | 1 => Some ROTATE_90_CLOCKWISE
  | 2 => Some ROTATE_180
  | _ => Some ROTATE_90_COUNTERCLOCKWISE
  end.

(** ** The poll loop *)

(** Control is inside an inner [while]: its test holds. *)
Definition in_loop (st : loop_pc * json) : bool :=
  match fst st with
  | AtPrinting => is_printing (snd st)
  | AtNotPrinting => negb (is_printing (snd st))
  end.

(** The argument of [time.sleep] in the inner [while] at [pc]. *)
Definition interval (pc : loop_pc) : Z :=
  match pc with
  | AtPrinting => 60
  | AtNotPrinting => 120
  end.

(** The world after a status query: one more call, one more reply used. *)
Definition requery (w : world) : world := log CallGetStatus (tick_queried w).


(** The [q]-th status reply is a status whose state is [state]. *)
Definition reports (E : env) (q : nat) (state : json) : Prop :=
  exists status, status_reply E q = Ok status /\ printer_state status = Ok state.

(** A handle that opens, delivers a frame and is released without error. *)
Definition delivers (c : capture) : bool :=
  isOpened c && match read c with Some _ => true | None => false end
  && negb (release_raises c).

(** The uploads among the calls made. *)
Definition uploads (l : list event) : nat :=
  List.length (filter (fun c => match c with CallPut _ _ => true | _ => false end) l).


(** The parsed body is an object without ["printer"], or its ["printer"]
    is an object without ["state"]; [key] is the key that is missing. *)
Definition lacks_state (status : json) (key : string) : Prop :=
  match status with
  | JObj members =>
      match dict_get "printer" members with
      | None => key = "printer"
      | Some (JObj inner) => dict_get "state" inner = None /\ key = "state"
      | Some _ => False
      end
  | _ => False
  end.

(** ** The camera selection *)

(** The releases among the calls made. *)
Definition releases (l : list event) : nat :=
  List.length (filter (fun c => match c with CallRelease => true | _ => false end) l).

Ltac run_py :=
  unfold captureImage, putImage, getPrinterStatus, bind, try, ret, raise, lift, local,
    cv2_VideoCapture, cap_read, cap_release, datetime_now, cv2_imwrite, time_sleep in *.

(** ** Sample data for the concrete runs *)

Module Sample.

Definition fp : string := "0123456789abcdef".
(** A second camera whose fingerprint extends the first one. *)
Definition fp_long : string := "0123456789abcdefX".

Definition status_of (state : string) : json :=
  JObj [("printer", JObj [("state", JStr state)])].

Definition stamp (t : Z) : string :=
  if t =? 0 then "2024-01-01_00_00_00"
  else if t =? 60 then "2024-01-01_00_01_00"
  else if t =? 120 then "2024-01-01_00_02_00"
  else "2024-01-01_00_03_00".

Definition good_camera : capture := mkCapture true (Some (Frame 0)) false.
Definition closed_camera : capture := mkCapture false None false.
Definition blind_camera : capture := mkCapture true None false.

(** An idle printer, a camera that works, uploads that succeed. *)
Definition calm : env :=
  mkEnv (fun _ _ => good_camera) (fun _ => Ok (status_of "IDLE"))
        (fun _ => Ok tt) stamp (fun _ => true).

Definition with_camera (c : capture) (E : env) : env :=
  mkEnv (fun _ _ => c) (status_reply E) (put_reply E) (strftime E) (verifyCamera E).

Definition with_status (f : nat -> result json) (E : env) : env :=
  mkEnv (VideoCapture E) f (put_reply E) (strftime E) (verifyCamera E).

Definition empty_folder : world := mkWorld Directory [] 0 [] [] 0 0 0.

Definition img (fingerprint now : string) (created : Z) : entry :=
  mkEntry (path_join "/imgs" (fingerprint ++ "_" ++ now ++ ".jpg")) created (Frame 0).

Definition two_images : world :=
  set_files [img fp "2024-01-01_00_00_00" 0; img fp "2024-01-01_00_02_00" 120]
            empty_folder.

(** One older image of the second camera, one newer image of the first. *)
Definition shared_folder : world :=
  set_files [img fp_long "2024-01-01_00_00_00" 0; img fp "2024-01-01_00_02_00" 120]
            empty_folder.

(** An image of an unrelated camera next to two of the first. *)
Definition stranger : entry := img "fedcba9876543210" "2024-01-01_00_00_00" 0.

Definition crowded_folder : world :=
  set_files (stranger :: files two_images) empty_folder.

(** Three images of the first camera created in the same second. *)
Definition tied_folder : world :=
  set_files [img fp "2024-01-01_00_02_00" 60; img fp "2024-01-01_00_00_00" 60;
             img fp "2024-01-01_00_01_00" 60]
            empty_folder.

(** A retention cap of 1. *)
Definition config : settings :=
  mkSettings fp "/imgs" None (JInt 1) (CamIndex 0).

Definition args : cli_args :=
  mkArgs (Some "token") "printer" (Some fp) (Some "192.168.0.10") (Some "key")
         (Some "/imgs") (IntText 500) (IntText 0) None.

End Sample.


(** The world after the first two iterations of the loop, started in an
    empty folder with an idle printer, a camera that works and a cap of 1. *)
Definition after_two_rounds : world :=
  snd (poll_loop Sample.calm Sample.config 2 (AtNotPrinting, JStr "IDLE") Sample.empty_folder).

(** A configuration file, and a command line, that ask for a full turn. *)
Definition config_full_turn : json :=
  JObj [("token", JStr "token"); ("name", JStr "printer"); ("fingerprint", JStr Sample.fp);
        ("ip", JStr "192.168.0.10"); ("apikey", JStr "key"); ("directory", JStr "/imgs");
        ("rotate", JInt 360)].

Definition args_full_turn : cli_args :=
  mkArgs (Some "token") "printer" (Some Sample.fp) (Some "192.168.0.10") (Some "key")
         (Some "/imgs") (IntText 500) (IntText 360) None.

(** No camera yields a frame during the selection. *)
Definition no_camera : env := Sample.with_camera Sample.blind_camera Sample.calm.

Definition after_selection : world :=
  snd (selectCamera no_camera (JStr "printer") Sample.empty_folder).

(* ================================================================== *)
(** * Properties *)

(** ** Facts on lists and on [sorted] *)

Section ListFacts.
Context {A : Type}.

Lemma filter_perm (p : A -> bool) (l l' : list A) :
  Permutation l l' -> Permutation (filter p l) (filter p l').
Proof.
  induction 1 as [| x l l' _ IH | x y l | l l' l'' _ IH1 _ IH2]; simpl.
  - constructor.
  - destruct (p x); [constructor |]; exact IH.
  - destruct (p x), (p y); try apply Permutation_refl.
    apply perm_swap.
  - eapply Permutation_trans; eassumption.
Qed.

Lemma filter_swap (p q : A -> bool) (l : list A) :
  filter p (filter q l) = filter q (filter p l).
Proof.
  induction l as [| x l IH]; simpl; [reflexivity |].
  destruct (q x) eqn:Hq, (p x) eqn:Hp; simpl; rewrite ?Hq, ?Hp, IH; reflexivity.
Qed.

Lemma filter_none (p : A -> bool) (l : list A) :
  (forall x, In x l -> p x = false) -> filter p l = [].
Proof.
  induction l as [| x l IH]; simpl; intros H; [reflexivity |].
  rewrite (H x (or_introl eq_refl)). apply IH. intros y Hy. apply H. now right.
Qed.

Lemma filter_all (p : A -> bool) (l : list A) :
  (forall x, In x l -> p x = true) -> filter p l = l.
Proof.
  induction l as [| x l IH]; simpl; intros H; [reflexivity |].
  rewrite (H x (or_introl eq_refl)). f_equal. apply IH. intros y Hy. apply H. now right.
Qed.

Context {B : Type} (f : A -> B).

Lemma NoDup_map_filter (p : A -> bool) (l : list A) :
  NoDup (map f l) -> NoDup (map f (filter p l)).
Proof.
  induction l as [| x l IH]; simpl; intros H; [constructor |].
  inversion H as [| ? ? Hx Hl]; subst.
  destruct (p x); simpl; [constructor |]; auto.
  intros Hin. apply Hx. apply in_map_iff in Hin as (y & Hy & Hin).
  apply in_map_iff. exists y. split; [exact Hy |].
  apply filter_In in Hin. tauto.
Qed.

(** With distinct images under [f], an element is the only one of the
    list that has its image. *)
Lemma NoDup_map_In_eq (l : list A) (x y : A) :
  NoDup (map f l) -> In x l -> In y l -> f x = f y -> x = y.
Proof.
  induction l as [| a l IH]; simpl; intros H Hx Hy Hf; [contradiction |].
  inversion H as [| ? ? Ha Hl]; subst.
  destruct Hx as [-> | Hx], Hy as [-> | Hy]; auto.
  - exfalso. apply Ha. rewrite Hf. now apply in_map.
  - exfalso. apply Ha. rewrite <- Hf. now apply in_map.
Qed.

End ListFacts.

Section SortedFacts.
Context {A : Type} (key : A -> Z).

Lemma insert_perm (a : A) (l : list A) :
  Permutation (Py.insert key a l) (a :: l).
Proof.
  induction l as [| b l IH]; simpl; [apply Permutation_refl |].
  destruct (key a <=? key b); [apply Permutation_refl |].
  eapply Permutation_trans; [apply perm_skip, IH | apply perm_swap].
Qed.

Lemma sorted_perm (l : list A) : Permutation (Py.sorted key l) l.
Proof.
  induction l as [| a l IH]; simpl; [constructor |].
  eapply Permutation_trans; [apply insert_perm | now apply perm_skip].
Qed.

Lemma insert_sorted (a : A) (l : list A) :
  StronglySorted (Py.key_le key) l -> StronglySorted (Py.key_le key) (Py.insert key a l).
Proof.
  induction 1 as [| b l Hl IH Hb]; simpl.
  - repeat constructor.
  - destruct (key a <=? key b) eqn:Hab.
    + apply Z.leb_le in Hab. constructor; [constructor; assumption |].
      constructor; [exact Hab |].
      eapply Forall_impl; [| exact Hb]. unfold Py.key_le. intros; lia.
    + apply Z.leb_gt in Hab. constructor; [exact IH |].
      eapply Permutation_Forall; [apply Permutation_sym, insert_perm |].
      constructor; [unfold Py.key_le; lia | exact Hb].
Qed.

Lemma sorted_sorted (l : list A) : StronglySorted (Py.key_le key) (Py.sorted key l).
Proof.
  induction l as [| a l IH]; simpl; [constructor | now apply insert_sorted].
Qed.

(** Stability: the elements of one key keep the order they had. *)
Lemma insert_stable (k : Z) (a : A) (l : list A) :
  filter (fun x => key x =? k) (Py.insert key a l)
  = filter (fun x => key x =? k) (a :: l).
Proof.
  induction l as [| b l IH]; [reflexivity |].
  cbn [Py.insert]. destruct (key a <=? key b) eqn:Hab; [reflexivity |].
  apply Z.leb_gt in Hab. cbn [filter] in *. rewrite IH.
  destruct (key a =? k) eqn:Ha, (key b =? k) eqn:Hb; try reflexivity.
  apply Z.eqb_eq in Ha, Hb. lia.
Qed.

Lemma sorted_stable (k : Z) (l : list A) :
  filter (fun x => key x =? k) (Py.sorted key l) = filter (fun x => key x =? k) l.
Proof.
  induction l as [| a l IH]; [reflexivity |].
  cbn [Py.sorted fold_right]. rewrite insert_stable. cbn [filter].
  fold (Py.sorted key l). rewrite IH. reflexivity.
Qed.

Lemma filter_sorted (p : A -> bool) (l : list A) :
  StronglySorted (Py.key_le key) l -> StronglySorted (Py.key_le key) (filter p l).
Proof.
  induction 1 as [| b l Hl IH Hb]; simpl; [constructor |].
  destruct (p b); [| exact IH].
  constructor; [exact IH |].
  apply Forall_forall. intros x Hx. apply filter_In in Hx as [Hx _].
  rewrite Forall_forall in Hb. now apply Hb.
Qed.

(** In a sorted list cut in two, the first part is below the second. *)
Lemma sorted_app_le (l1 l2 : list A) (x y : A) :
  StronglySorted (Py.key_le key) (l1 ++ l2) -> In x l1 -> In y l2 -> key x <= key y.
Proof.
  induction l1 as [| a l1 IH]; simpl; intros H Hx Hy; [contradiction |].
  apply StronglySorted_inv in H as [H Ha].
  destruct Hx as [-> | Hx]; [| now apply IH].
  rewrite Forall_forall in Ha. apply Ha. apply in_or_app. now right.
Qed.

End SortedFacts.

Lemma NoDup_app_disjoint {A} (l1 l2 : list A) (a : A) :
  NoDup (l1 ++ l2) -> In a l1 -> ~ In a l2.
Proof.
  induction l1 as [| b l1 IH]; simpl; intros H Ha Ha2; [contradiction |].
  inversion H as [| ? ? Hb Hl]; subst.
  destruct Ha as [-> | Ha]; [| now apply IH].
  apply Hb. apply in_or_app. now right.
Qed.

Lemma In_firstn {A} (n : nat) (l : list A) (a : A) :
  In a (firstn n l) -> In a l.
Proof.
  intros H. rewrite <- (firstn_skipn n l). apply in_or_app. now left.
Qed.

Lemma listed_before_In {A} (l : list A) (x y : A) :
  listed_before l x y -> In x l /\ In y l.
Proof.
  induction l as [| a l IH]; simpl; [tauto |].
  intros [[-> Hy] | H]; [tauto |]. apply IH in H. tauto.
Qed.

Lemma listed_before_asym {A} (l : list A) (x y : A) :
  NoDup l -> listed_before l x y -> listed_before l y x -> False.
Proof.
  induction l as [| a l IH]; simpl; [tauto |].
  intros Hnd Hxy Hyx. inversion Hnd as [| ? ? Ha Hl]; subst.
  destruct Hxy as [[-> Hy] | Hxy], Hyx as [[Hax Hx] | Hyx].
  - contradiction.
  - apply listed_before_In in Hyx. tauto.
  - subst a. apply listed_before_In in Hxy. tauto.
  - now apply IH.
Qed.

Lemma listed_before_total {A} (l : list A) (x y : A) :
  In x l -> In y l -> x <> y -> listed_before l x y \/ listed_before l y x.
Proof.
  induction l as [| a l IH]; simpl; [tauto |].
  intros [-> | Hx] [-> | Hy] Hne; tauto.
Qed.

Lemma listed_before_filter {A} (p : A -> bool) (l : list A) (x y : A) :
  p x = true -> p y = true -> listed_before l x y -> listed_before (filter p l) x y.
Proof.
  intros Hx Hy. induction l as [| a l IH]; simpl; [tauto |].
  intros [[-> Hin] | H].
  - rewrite Hx. simpl. left. split; [reflexivity |]. apply filter_In. tauto.
  - destruct (p a); simpl; [right |]; now apply IH.
Qed.

(** In a list without repetition, what stands before a member of a prefix
    is in the prefix. *)
Lemma listed_before_firstn {A} (l : list A) (x y : A) :
  NoDup l -> listed_before l x y ->
  forall n, In y (firstn n l) -> In x (firstn n l).
Proof.
  induction l as [| a l IH]; simpl; [tauto |].
  intros Hnd Hxy n Hy. inversion Hnd as [| ? ? Ha Hl]; subst.
  destruct n as [| n]; simpl in *; [contradiction |].
  destruct Hxy as [[-> _] | Hxy]; [now left |].
  destruct Hy as [-> | Hy].
  - apply listed_before_In in Hxy. tauto.
  - right. now apply IH.
Qed.

Lemma listed_before_sorted {A} (key : A -> Z) (l : list A) (x y : A) :
  StronglySorted (Py.key_le key) l -> listed_before l x y -> key x <= key y.
Proof.
  induction 1 as [| a l Hs IH Hall]; simpl; [tauto |].
  intros [[-> Hy] | H]; [| now apply IH].
  rewrite Forall_forall in Hall. exact (Hall y Hy).
Qed.

(** [sorted] puts [x] before [y] when its key is smaller, and leaves it
    before [y] when the keys are equal. *)
Lemma sorted_keeps_before {A} (key : A -> Z) (l : list A) (x y : A) :
  NoDup l -> In x l -> In y l ->
  key x < key y \/ (key x = key y /\ listed_before l x y) ->
  listed_before (Py.sorted key l) x y.
Proof.
  intros Hnd Hx Hy Hord.
  assert (Hne : x <> y).
  { intros ->. destruct Hord as [H | [_ H]]; [lia |].
    exact (listed_before_asym l y y Hnd H H). }
  assert (Hperm := sorted_perm key l).
  destruct (listed_before_total (Py.sorted key l) x y) as [H | H]; try exact H.
  - eapply Permutation_in; [apply Permutation_sym, Hperm | exact Hx].
  - eapply Permutation_in; [apply Permutation_sym, Hperm | exact Hy].
  - exact Hne.
  - exfalso. pose proof (listed_before_sorted key _ y x (sorted_sorted key l) H) as Hle.
    destruct Hord as [Hlt | [Heq Hb]]; [lia |].
    apply (listed_before_filter (fun a => key a =? key x)) in H;
      [| apply Z.eqb_eq; now symmetry | apply Z.eqb_refl].
    apply (listed_before_filter (fun a => key a =? key x)) in Hb;
      [| apply Z.eqb_refl | apply Z.eqb_eq; now symmetry].
    rewrite sorted_stable in H.
    eapply listed_before_asym; [| exact Hb | exact H].
    now apply NoDup_filter.
Qed.

(* ================================================================== *)
(** ** The retention sweeper *)

Lemma is_gone_In (gone : list entry) (e : entry) :
  is_gone gone e = true <-> In (path e) (map path gone).
Proof.
  unfold is_gone. rewrite existsb_exists. split.
  - intros (p & Hp & Heq). apply String.eqb_eq in Heq. now subst.
  - intros H. exists (path e). split; [exact H | apply String.eqb_refl].
Qed.

Lemma find_file_present (p : string) (l : list entry) :
  In p (map path l) -> exists e, find_file p l = Some e.
Proof.
  intros H. apply in_map_iff in H as (e & He & Hin).
  destruct (find_file p l) as [e' |] eqn:Hf; [now exists e' |].
  unfold find_file in Hf. eapply find_none in Hf; [| exact Hin].
  simpl in Hf. rewrite He, String.eqb_refl in Hf. discriminate.
Qed.

Lemma survivors_cons (d : entry) (gone l : list entry) :
  survivors gone (filter (fun e => negb (String.eqb (path e) (path d))) l)
  = survivors (d :: gone) l.
Proof.
  unfold survivors. induction l as [| x l IH]; simpl; [reflexivity |].
  unfold is_gone at 2. cbn [map existsb]. fold (is_gone gone x).
  destruct (String.eqb (path x) (path d)); simpl; [exact IH |].
  destruct (is_gone gone x); simpl; rewrite IH; reflexivity.
Qed.

(** With distinct paths that are all present, every [os.remove] of the
    loop succeeds, and what is left is the folder without these paths. *)
Lemma remove_each_ok (gone : list entry) :
  forall w,
    NoDup (map path gone) ->
    incl (map path gone) (map path (files w)) ->
    exists w', remove_each gone w = (Ok tt, w') /\ files w' = survivors gone (files w).
Proof.
  induction gone as [| d gone IH]; intros w Hnd Hincl.
  - exists w. split; [reflexivity |].
    unfold survivors. symmetry. apply filter_all. reflexivity.
  - cbn [map] in Hnd, Hincl. inversion Hnd as [| ? ? Hd Hnd']; subst.
    destruct (find_file_present (path d) (files w)) as [e He].
    { apply Hincl. now left. }
    cbn [remove_each]. unfold bind at 1. unfold os_remove at 1. rewrite He.
    set (w1 := log _ _).
    destruct (IH w1 Hnd') as (w' & Hrun & Hfiles).
    { intros p Hp. subst w1. cbn [log set_files files].
      assert (Hpw : In p (map path (files w))) by (apply Hincl; now right).
      apply in_map_iff in Hpw as (x & Hx & Hin).
      apply in_map_iff. exists x. split; [exact Hx |].
      apply filter_In. split; [exact Hin |].
      apply negb_true_iff, String.eqb_neq. intros Heq. apply Hd. congruence. }
    exists w'. split; [exact Hrun |].
    rewrite Hfiles. subst w1. cbn [log set_files files]. apply survivors_cons.
Qed.

(** Whatever happens, [os.remove] takes away nothing but the path it is
    given. *)
Lemma remove_each_keeps (gone : list entry) (e : entry) :
  forall w,
    In e (files w) -> ~ In (path e) (map path gone) ->
    In e (files (snd (remove_each gone w))).
Proof.
  induction gone as [| d gone IH]; intros w Hin Hp; [exact Hin |].
  cbn [remove_each]. unfold bind at 1. unfold os_remove at 1.
  destruct (find_file (path d) (files w)); [| exact Hin].
  apply IH.
  - cbn [log set_files files]. apply filter_In. split; [exact Hin |].
    apply negb_true_iff, String.eqb_neq. intros Heq. apply Hp. left. now symmetry.
  - intros H. apply Hp. now right.
Qed.

Lemma remove_each_incl (gone : list entry) :
  forall w e, In e (files (snd (remove_each gone w))) -> In e (files w).
Proof.
  induction gone as [| d gone IH]; intros w e; [trivial |].
  cbn [remove_each]. unfold bind at 1. unfold os_remove at 1.
  destruct (find_file (path d) (files w)); [| trivial].
  intros H. apply IH in H. cbn [log set_files files] in H.
  apply filter_In in H. tauto.
Qed.

Lemma remove_each_folder (gone : list entry) :
  forall w, folder (snd (remove_each gone w)) = folder w.
Proof.
  induction gone as [| d gone IH]; intros w; [reflexivity |].
  cbn [remove_each]. unfold bind at 1. unfold os_remove at 1.
  destruct (find_file (path d) (files w)); [| reflexivity].
  now rewrite IH.
Qed.

Lemma deleteImages_unfold (imgs_folder fingerprint : string) (max_images : Z) (w : world) :
  deleteImages imgs_folder fingerprint max_images w
  = match folder w with
    | Directory =>
        if is_absolute imgs_folder
        then if max_images <? Z.of_nat (List.length (counted fingerprint w))
             then remove_each (Py.slice_to (counted fingerprint w) (-1 * max_images))
                    (log (CallChdir imgs_folder) w)
             else (Ok tt, log (CallChdir imgs_folder) w)
        else (Raise FileNotFoundError, log (CallChdir imgs_folder) w)
    | Missing => (Raise FileNotFoundError, w)
    | RegularFile => (Raise NotADirectoryError, w)
    end.
Proof.
  unfold deleteImages, bind, os_chdir, iterdir, counted.
  destruct (folder w) eqn:Hk; try reflexivity.
  cbn [folder log]. rewrite Hk.
  destruct (is_absolute imgs_folder); [| reflexivity].
  cbn [files log].
  destruct (max_images <? _); reflexivity.
Qed.

(** What a sweep leaves alone when it stops before its first removal. *)
Lemma deleteImages_files (imgs_folder fingerprint : string) (max_images : Z) (w : world) :
  files (snd (deleteImages imgs_folder fingerprint max_images w)) = files w
  \/ (folder w = Directory /\ is_absolute imgs_folder = true
      /\ deleteImages imgs_folder fingerprint max_images w
         = remove_each (Py.slice_to (counted fingerprint w) (-1 * max_images))
             (log (CallChdir imgs_folder) w)).
Proof.
  rewrite deleteImages_unfold.
  destruct (folder w); [now left | now left |].
  destruct (is_absolute imgs_folder); [| now left].
  destruct (max_images <? _); [| now left].
  right. repeat split.
Qed.

Lemma counted_length (fingerprint : string) (w : world) :
  List.length (counted fingerprint w)
  = List.length (filter (matches fingerprint) (files w)).
Proof.
  unfold counted. apply Permutation_length, filter_perm, sorted_perm.
Qed.

Lemma counted_NoDup (fingerprint : string) (w : world) :
  NoDup (map path (files w)) -> NoDup (map path (counted fingerprint w)).
Proof.
  intros H. unfold counted. apply NoDup_map_filter.
  eapply Permutation_NoDup; [| exact H].
  apply Permutation_map, Permutation_sym, sorted_perm.
Qed.

Lemma counted_In (fingerprint : string) (w : world) (e : entry) :
  In e (counted fingerprint w) <-> In e (files w) /\ matches fingerprint e = true.
Proof.
  unfold counted. rewrite filter_In. split; intros [H1 H2]; (split; [| exact H2]).
  - eapply Permutation_in; [apply sorted_perm | exact H1].
  - eapply Permutation_in; [apply Permutation_sym, sorted_perm | exact H1].
Qed.

(** Removing the [k] oldest counted images of a folder with distinct paths:
    every [os.remove] succeeds, the count drops by [k] (or to nothing), and
    what is kept is no older than what is gone. *)
Lemma remove_oldest (fingerprint : string) (k : nat) (w : world) :
  NoDup (map path (files w)) ->
  exists w',
    remove_each (firstn k (counted fingerprint w)) w = (Ok tt, w')
    /\ files w' = survivors (firstn k (counted fingerprint w)) (files w)
    /\ on_disk fingerprint w' = (on_disk fingerprint w - k)%nat
    /\ (forall kept gone,
           In kept (files w') -> matches fingerprint kept = true ->
           In gone (files w) -> ~ In gone (files w') ->
           ctime gone <= ctime kept).
Proof.
  intros Hnd. unfold on_disk. rewrite <- (counted_length fingerprint w).
  set (F := counted fingerprint w) in *.
  assert (Hsplit : F = (firstn k F ++ skipn k F)%list) by (symmetry; apply firstn_skipn).
  set (D := firstn k F) in *. set (R := skipn k F) in *.
  assert (HndF : NoDup (map path D ++ map path R)%list).
  { rewrite <- map_app, <- Hsplit. now apply counted_NoDup. }
  assert (HD : forall x, In x D -> In x F).
  { intros x Hx. rewrite Hsplit. apply in_or_app. now left. }
  destruct (remove_each_ok D w) as (w' & Hrun & Hfiles).
  { eapply NoDup_app_remove_r; exact HndF. }
  { intros p Hp. apply in_map_iff in Hp as (x & <- & Hx). apply in_map.
    apply HD, counted_In in Hx. tauto. }
  assert (HgoneD : forall x, In x D -> is_gone D x = true).
  { intros x Hx. apply is_gone_In. now apply in_map. }
  assert (HgoneR : forall x, In x R -> is_gone D x = false).
  { intros x Hx. destruct (is_gone D x) eqn:Hg; [| reflexivity].
    apply is_gone_In in Hg. exfalso.
    eapply NoDup_app_disjoint; [exact HndF | exact Hg | now apply in_map]. }
  exists w'. split; [exact Hrun | split; [exact Hfiles | split]].
  - rewrite Hfiles. unfold survivors. rewrite filter_swap.
    rewrite (Permutation_length
               (filter_perm _ _ _ (filter_perm (matches fingerprint) _ _
                                     (Permutation_sym (sorted_perm ctime (files w)))))).
    fold (counted fingerprint w). fold F. rewrite Hsplit at 1. rewrite filter_app.
    rewrite (filter_none _ D), (filter_all _ R); simpl.
    + subst R. apply length_skipn.
    + intros x Hx. now rewrite (HgoneR x Hx).
    + intros x Hx. now rewrite (HgoneD x Hx).
  - intros kept gone Hk Hkm Hg Hgn.
    rewrite Hfiles in Hk, Hgn. unfold survivors in Hk, Hgn.
    apply filter_In in Hk as [Hk Hkg]. apply negb_true_iff in Hkg.
    assert (HkR : In kept R).
    { assert (HkF : In kept F) by (apply counted_In; tauto).
      rewrite Hsplit in HkF. apply in_app_or in HkF as [HkD | HkR]; [| exact HkR].
      rewrite (HgoneD kept HkD) in Hkg. discriminate. }
    assert (HgD : In gone D).
    { destruct (is_gone D gone) eqn:Hgg.
      - apply is_gone_In, in_map_iff in Hgg as (d & Hd & Hin).
        assert (Hdw : In d (files w)) by (apply HD, counted_In in Hin; tauto).
        assert (d = gone) by (eapply NoDup_map_In_eq; eauto). now subst d.
      - exfalso. apply Hgn. apply filter_In. split; [exact Hg |]. now rewrite Hgg. }
    apply (sorted_app_le ctime D R); [| exact HgD | exact HkR].
    rewrite <- Hsplit. apply filter_sorted, sorted_sorted.
Qed.

(** For a cap of at least one image that the count exceeds, in a folder that
    exists and is given by its absolute path, the sweep runs to its end,
    leaves exactly [max_images] counted images, and every image it removed
    was created no later than every counted image it kept. *)
Lemma sweep_keeps_newest (imgs_folder fingerprint : string) (max_images : Z) (w : world) :
  is_absolute imgs_folder = true ->
  folder w = Directory ->
  NoDup (map path (files w)) ->
  1 <= max_images < Z.of_nat (List.length (filter (matches fingerprint) (files w))) ->
  exists w',
    deleteImages imgs_folder fingerprint max_images w = (Ok tt, w')
    /\ Z.of_nat (List.length (filter (matches fingerprint) (files w'))) = max_images
    /\ (forall e, In e (files w') -> In e (files w))
    /\ (forall e, In e (files w) -> matches fingerprint e = false -> In e (files w'))
    /\ (forall kept gone,
           In kept (files w') -> matches fingerprint kept = true ->
           In gone (files w) -> ~ In gone (files w') ->
           ctime gone <= ctime kept).
Proof.
  intros Habs Hdir Hnd [Hlo Hhi]. rewrite <- counted_length in Hhi.
  set (N := List.length (counted fingerprint w)) in *.
  set (k := Z.to_nat (Z.of_nat N - max_images)).
  set (w1 := log (CallChdir imgs_folder) w).
  destruct (remove_oldest fingerprint k w1 Hnd) as (w' & Hrun & Hfiles & Hcount & Hold).
  change (counted fingerprint w1) with (counted fingerprint w) in Hrun, Hfiles.
  change (files w1) with (files w) in Hfiles, Hold.
  change (on_disk fingerprint w1) with (on_disk fingerprint w) in Hcount.
  exists w'. split; [| split; [| split; [| split; [| exact Hold]]]].
  - rewrite deleteImages_unfold, Hdir, Habs. fold N.
    apply Z.ltb_lt in Hhi. rewrite Hhi.
    unfold Py.slice_to. fold N.
    assert (Hneg : (-1 * max_images <? 0) = true) by (apply Z.ltb_lt; lia).
    rewrite Hneg.
    replace (Z.to_nat (Z.max 0 (-1 * max_images + Z.of_nat N))) with k
      by (subst k; f_equal; lia).
    exact Hrun.
  - fold (on_disk fingerprint w'). rewrite Hcount.
    unfold on_disk. rewrite <- (counted_length fingerprint w). fold N. subst k. lia.
  - intros e He. rewrite Hfiles in He. apply filter_In in He. tauto.
  - intros e He Hm. rewrite Hfiles. apply filter_In. split; [exact He |].
    apply negb_true_iff. destruct (is_gone _ e) eqn:Hg; [| reflexivity].
    apply is_gone_In, in_map_iff in Hg as (d & Hd & Hin).
    apply In_firstn, counted_In in Hin as [Hin Hmd].
    assert (d = e) by (eapply NoDup_map_In_eq; eauto). subst d. congruence.
Qed.

(** The sweep leaves the folder a folder. *)
Lemma deleteImages_folder (imgs_folder fingerprint : string) (max_images : Z) (w : world) :
  folder (snd (deleteImages imgs_folder fingerprint max_images w)) = folder w.
Proof.
  rewrite deleteImages_unfold.
  destruct (folder w) eqn:Hk; try exact Hk.
  destruct (is_absolute imgs_folder); [| exact Hk].
  destruct (max_images <? Z.of_nat (List.length (counted fingerprint w))); [| exact Hk].
  rewrite remove_each_folder. exact Hk.
Qed.

(** Within the cap, in a folder that exists and is given by its absolute
    path, the sweep changes the working directory and does nothing else. *)
Lemma sweep_within_cap (imgs_folder fingerprint : string) (max_images : Z) (w : world) :
  is_absolute imgs_folder = true ->
  folder w = Directory ->
  Z.of_nat (on_disk fingerprint w) <= max_images ->
  deleteImages imgs_folder fingerprint max_images w
  = (Ok tt, log (CallChdir imgs_folder) w).
Proof.
  intros Habs Hdir Hcap.
  rewrite deleteImages_unfold, Hdir, Habs, counted_length. fold (on_disk fingerprint w).
  apply Z.ltb_ge in Hcap. rewrite Hcap. reflexivity.
Qed.

(** What a sweep removes is a prefix of the counted images, when the paths
    of the folder are distinct. *)
Lemma sweep_removes_prefix (imgs_folder fingerprint : string) (max_images : Z) (w : world) :
  NoDup (map path (files w)) ->
  exists k,
    forall e, In e (files w) ->
      (~ In e (files (snd (deleteImages imgs_folder fingerprint max_images w)))
       <-> In e (firstn k (counted fingerprint w))).
Proof.
  intros Hnd.
  assert (Hnone : files (snd (deleteImages imgs_folder fingerprint max_images w)) = files w ->
                  forall e, In e (files w) ->
                    (~ In e (files (snd (deleteImages imgs_folder fingerprint max_images w)))
                     <-> In e (firstn 0 (counted fingerprint w)))).
  { intros H e He. rewrite H. simpl. tauto. }
  destruct (deleteImages_files imgs_folder fingerprint max_images w) as [H | (_ & _ & H)];
    [exists 0%nat; now apply Hnone |].
  unfold Py.slice_to in H.
  set (k := if -1 * max_images <? 0
            then Z.to_nat (Z.max 0 (-1 * max_images
                                    + Z.of_nat (List.length (counted fingerprint w))))
            else Z.to_nat (Z.min (-1 * max_images)
                             (Z.of_nat (List.length (counted fingerprint w))))) in *.
  assert (Hk : remove_each (firstn k (counted fingerprint w)) (log (CallChdir imgs_folder) w)
               = deleteImages imgs_folder fingerprint max_images w).
  { rewrite H. subst k. destruct (-1 * max_images <? 0); reflexivity. }
  exists k. intros e He.
  destruct (remove_oldest fingerprint k (log (CallChdir imgs_folder) w) Hnd)
    as (w' & Hrun & Hfiles & _).
  change (counted fingerprint (log (CallChdir imgs_folder) w))
    with (counted fingerprint w) in Hrun, Hfiles.
  change (files (log (CallChdir imgs_folder) w)) with (files w) in Hfiles.
  rewrite <- Hk, Hrun. cbn [snd]. rewrite Hfiles. unfold survivors. rewrite filter_In.
  split.
  - intros Hno. destruct (is_gone _ e) eqn:Hg; [| exfalso; apply Hno; now split].
    apply is_gone_In, in_map_iff in Hg as (d & Hd & Hin).
    assert (Hdw : In d (files w)) by (apply In_firstn, counted_In in Hin; tauto).
    assert (d = e) by (eapply NoDup_map_In_eq; eauto). now subst d.
  - intros Hin [_ Hg]. apply negb_true_iff in Hg.
    assert (Ht : is_gone (firstn k (counted fingerprint w)) e = true)
      by (apply is_gone_In; now apply in_map).
    congruence.
Qed.

(** A folder with two images and a cap of 1: the sweep leaves the newer. *)
Example sweep_keeps_newest_of_two :
  exists w',
    deleteImages "/imgs" Sample.fp 1 Sample.two_images = (Ok tt, w')
    /\ Z.of_nat (on_disk Sample.fp w') = 1
    /\ map path (files w') = ["/imgs/0123456789abcdef_2024-01-01_00_02_00.jpg"].
Proof.
  exists (snd (deleteImages "/imgs" Sample.fp 1 Sample.two_images)).
  repeat split.
Qed.

(** C5, at a cap of 0: [filtered[0:-1*0]] is [filtered[0:0]], the empty
    list, so the sweep removes nothing whatever the folder holds, and in a
    folder that exists, given by its absolute path, it returns normally
    after the change of directory; in a folder with two images of the
    fingerprint both are still there afterwards, where the claim asks for
    none. *)
Theorem sweep_cap_zero_removes_nothing :
  (forall imgs_folder fingerprint w,
      files (snd (deleteImages imgs_folder fingerprint 0 w)) = files w)
  /\ (forall imgs_folder fingerprint w,
         is_absolute imgs_folder = true -> folder w = Directory ->
         deleteImages imgs_folder fingerprint 0 w = (Ok tt, log (CallChdir imgs_folder) w))
  /\ List.length (filter (matches Sample.fp) (files Sample.two_images)) = 2%nat
  /\ List.length
       (filter (matches Sample.fp)
          (files (snd (deleteImages "/imgs" Sample.fp 0 Sample.two_images)))) = 2%nat.
Proof.
  assert (Hslice : forall l : list entry, Py.slice_to l (-1 * 0) = []).
  { intros l. unfold Py.slice_to. cbn [Z.mul Z.opp Z.ltb Z.compare].
    rewrite Z.min_l by lia. reflexivity. }
  split; [| split; [| split]]; try reflexivity.
  - intros imgs_folder fingerprint w.
    destruct (deleteImages_files imgs_folder fingerprint 0 w) as [H | (_ & _ & H)];
      [exact H |].
    rewrite H, Hslice. reflexivity.
  - intros imgs_folder fingerprint w Habs Hdir.
    rewrite deleteImages_unfold, Hdir, Habs, Hslice.
    destruct (0 <? _); reflexivity.
Qed.

Lemma sweep_cap_zero_removes_nothing_witness :
  deleteImages "/imgs" Sample.fp 0 Sample.two_images
  = (Ok tt, log (CallChdir "/imgs") Sample.two_images).
Proof.
  apply (proj1 (proj2 sweep_cap_zero_removes_nothing) "/imgs" Sample.fp Sample.two_images);
    reflexivity.
Defined.


(** The same run to its end: the older image, the second camera's, is the
    one the sweep removes. *)
Example sweep_removes_extended_fingerprint :
  map path (files (snd (deleteImages "/imgs" Sample.fp 1 Sample.shared_folder)))
  = ["/imgs/0123456789abcdef_2024-01-01_00_02_00.jpg"]
  /\ calls (snd (deleteImages "/imgs" Sample.fp 1 Sample.shared_folder))
     = [CallRemove "/imgs/0123456789abcdefX_2024-01-01_00_00_00.jpg"; CallChdir "/imgs"].
Proof. split; reflexivity. Qed.



(* ================================================================== *)
(** ** Where the loop stands *)

Lemma step_in_loop (E : env) (s : settings) (pc : loop_pc) (printer_status : json) (w : world) :
  in_loop (pc, printer_status) = true ->
  step E s (pc, printer_status) w
  = bind (iteration E s (interval pc) printer_status) (fun st' => ret (pc, st')) w.
Proof.
  unfold in_loop, step. cbn [fst snd]. destruct pc; intros ->; reflexivity.
Qed.

Lemma step_out_of_loop (E : env) (s : settings) (pc : loop_pc) (printer_status : json) (w : world) :
  in_loop (pc, printer_status) = false ->
  step E s (pc, printer_status) w
  = (Ok (match pc with AtPrinting => AtNotPrinting | AtNotPrinting => AtPrinting end,
         printer_status), w).
Proof.
  unfold in_loop, step. cbn [fst snd]. destruct pc; intros ->; reflexivity.
Qed.

(* ================================================================== *)
(** ** The image capturer *)

(** Every way [captureImage] can end, by the behaviour of the handle. *)
Lemma captureImage_result (E : env) (id : camera_id) (fingerprint imgs_folder : string)
      (rotation : option rotate_code) (w : world) :
  let cap := VideoCapture E id (opened w) in
  fst (captureImage E id fingerprint imgs_folder rotation w)
  = if isOpened cap
    then match read cap with
         | Some _ => if release_raises cap then Ok None
                     else Ok (Some (img_path_at E fingerprint imgs_folder w))
         | None => Raise (UnboundLocalError "img_path")
         end
    else if release_raises cap then Ok None
         else Raise (UnboundLocalError "img_path").
Proof.
  intros cap. subst cap. run_py. cbn [opened log tick_opened].
  destruct (VideoCapture E id (opened w)) as [op rd rel]. cbn [isOpened read release_raises].
  destruct op, rd, rel; reflexivity.
Qed.

(** The calls [captureImage] makes, most recent first. *)
Lemma captureImage_calls (E : env) (id : camera_id) (fingerprint imgs_folder : string)
      (rotation : option rotate_code) (w : world) :
  let cap := VideoCapture E id (opened w) in
  calls (snd (captureImage E id fingerprint imgs_folder rotation w))
  = ((if isOpened cap
      then match read cap with
           | Some frame =>
               [CallRelease;
                CallImwrite (img_path_at E fingerprint imgs_folder w) (stored rotation frame);
                CallRead]
           | None => [CallRead]
           end
      else [CallRelease]) ++ CallVideoCapture id :: calls w)%list.
Proof.
  intros cap. subst cap. run_py. cbn [opened log tick_opened].
  destruct (VideoCapture E id (opened w)) as [op rd rel]. cbn [isOpened read release_raises].
  destruct op, rd, rel; reflexivity.
Qed.

(** C2: when the handle does not open (and its release succeeds), or opens
    and yields no frame, [captureImage] does not return [None]: reading the
    unassigned [img_path] raises [UnboundLocalError].  The call sits outside
    the loop's [try], so the iteration ends with that exception: no upload
    was made, but no sleep either, and the loop is dead. *)
Theorem no_frame_crashes_the_loop
        (E : env) (s : settings) (pc : loop_pc) (printer_status : json) (w : world)
        (status state : json) :
  in_loop (pc, printer_status) = true ->
  status_reply E (queried w) = Ok status ->
  printer_state status = Ok state ->
  isOpened (VideoCapture E (camera s) (opened w)) = false
  /\ release_raises (VideoCapture E (camera s) (opened w)) = false
  \/ isOpened (VideoCapture E (camera s) (opened w)) = true
     /\ read (VideoCapture E (camera s) (opened w)) = None ->
  fst (captureImage E (camera s) (fingerprint s) (imgs_folder s) (image_rotation s) w)
  = Raise (UnboundLocalError "img_path")
  /\ fst (step E s (pc, printer_status) w) = Raise (UnboundLocalError "img_path")
  /\ uploaded (snd (step E s (pc, printer_status) w)) = uploaded w
  /\ clock (snd (step E s (pc, printer_status) w)) = clock w
  /\ forall fuel, fst (poll_loop E s (S fuel) (pc, printer_status) w)
                  = Raise (UnboundLocalError "img_path").
Proof.
  intros Hin Hreply Hstate Hcap.
  assert (Hstep : fst (step E s (pc, printer_status) w) = Raise (UnboundLocalError "img_path")
                  /\ uploaded (snd (step E s (pc, printer_status) w)) = uploaded w
                  /\ clock (snd (step E s (pc, printer_status) w)) = clock w).
  { rewrite step_in_loop by exact Hin. clear Hin.
    unfold iteration. run_py. rewrite Hreply, Hstate.
    cbn [opened log tick_opened tick_queried].
    destruct (VideoCapture E (camera s) (opened w)) as [op rd rel].
    cbn [isOpened read release_raises] in *.
    destruct Hcap as [[-> ->] | [-> ->]]; repeat split. }
  split; [| split; [| split; [| split]]]; try apply Hstep.
  - rewrite captureImage_result.
    destruct Hcap as [[-> ->] | [-> ->]]; reflexivity.
  - intros fuel. cbn [poll_loop]. unfold bind.
    destruct Hstep as [Hstep _].
    destruct (step E s (pc, printer_status) w) as [[st | e] w'];
      cbn [fst] in Hstep; [discriminate | exact Hstep].
Qed.

Lemma no_frame_crashes_the_loop_witness :
  fst (captureImage (Sample.with_camera Sample.closed_camera Sample.calm)
         (CamIndex 0) Sample.fp "/imgs" None Sample.empty_folder)
  = Raise (UnboundLocalError "img_path")
  /\ fst (step (Sample.with_camera Sample.closed_camera Sample.calm)
            Sample.config (AtNotPrinting, JStr "IDLE") Sample.empty_folder)
     = Raise (UnboundLocalError "img_path")
  /\ uploaded (snd (step (Sample.with_camera Sample.closed_camera Sample.calm)
                      Sample.config (AtNotPrinting, JStr "IDLE") Sample.empty_folder)) = 0%nat
  /\ clock (snd (step (Sample.with_camera Sample.closed_camera Sample.calm)
                   Sample.config (AtNotPrinting, JStr "IDLE") Sample.empty_folder)) = 0
  /\ forall fuel,
       fst (poll_loop (Sample.with_camera Sample.closed_camera Sample.calm)
              Sample.config (S fuel) (AtNotPrinting, JStr "IDLE") Sample.empty_folder)
       = Raise (UnboundLocalError "img_path").
Proof.
  apply (no_frame_crashes_the_loop
           (Sample.with_camera Sample.closed_camera Sample.calm)
           Sample.config AtNotPrinting (JStr "IDLE") Sample.empty_folder
           (Sample.status_of "IDLE") (JStr "IDLE")).
  - reflexivity.
  - reflexivity.
  - reflexivity.
  - left. split; reflexivity.
Defined.

(** C3: with a handle that opened and yields no frame, [captureImage] is
    left by the exception of line 97, before [cap.release()] is reached:
    the calls made are the opening and the read, and no release. *)
Theorem frame_failure_skips_release
        (E : env) (id : camera_id) (fingerprint imgs_folder : string)
        (rotation : option rotate_code) (w : world) :
  isOpened (VideoCapture E id (opened w)) = true ->
  read (VideoCapture E id (opened w)) = None ->
  fst (captureImage E id fingerprint imgs_folder rotation w)
  = Raise (UnboundLocalError "img_path")
  /\ calls (snd (captureImage E id fingerprint imgs_folder rotation w))
     = CallRead :: CallVideoCapture id :: calls w.
Proof.
  intros Hop Hrd. rewrite captureImage_result, captureImage_calls, Hop, Hrd.
  split; reflexivity.
Qed.

Lemma frame_failure_skips_release_witness :
  fst (captureImage (Sample.with_camera Sample.blind_camera Sample.calm)
         (CamIndex 0) Sample.fp "/imgs" None Sample.empty_folder)
  = Raise (UnboundLocalError "img_path")
  /\ calls (snd (captureImage (Sample.with_camera Sample.blind_camera Sample.calm)
                   (CamIndex 0) Sample.fp "/imgs" None Sample.empty_folder))
     = [CallRead; CallVideoCapture (CamIndex 0)].
Proof.
  apply (frame_failure_skips_release
           (Sample.with_camera Sample.blind_camera Sample.calm)
           (CamIndex 0) Sample.fp "/imgs" None Sample.empty_folder); reflexivity.
Defined.

(** On the two other paths the release is reached: it is the last call when
    a frame was stored and when the handle did not open. *)
Lemma release_reached_otherwise
      (E : env) (id : camera_id) (fingerprint imgs_folder : string)
      (rotation : option rotate_code) (w : world) :
  isOpened (VideoCapture E id (opened w)) = false
  \/ read (VideoCapture E id (opened w)) <> None ->
  hd_error (calls (snd (captureImage E id fingerprint imgs_folder rotation w)))
  = Some CallRelease.
Proof.
  intros H. rewrite captureImage_calls.
  destruct (isOpened (VideoCapture E id (opened w))) eqn:Hop.
  - destruct H as [H | H]; [discriminate |].
    destruct (read (VideoCapture E id (opened w))); [reflexivity | contradiction].
  - reflexivity.
Qed.

(* ================================================================== *)
(** ** The poll loop *)






Lemma write_file_paths (e : entry) (l : list entry) (p : string) :
  In p (map path l) -> In p (map path (write_file e l)).
Proof.
  induction l as [| x l IH]; simpl; intros H; [contradiction |].
  destruct (String.eqb (path x) (path e)) eqn:Hx; simpl.
  - apply String.eqb_eq in Hx. rewrite <- Hx. exact H.
  - destruct H as [H | H]; [now left | right; now apply IH].
Qed.

(** What [captureImage] leaves alone, and that it takes no path away. *)
Lemma captureImage_frame (E : env) (id : camera_id) (fingerprint imgs_folder : string)
      (rotation : option rotate_code) (w : world) :
  clock (snd (captureImage E id fingerprint imgs_folder rotation w)) = clock w
  /\ uploaded (snd (captureImage E id fingerprint imgs_folder rotation w)) = uploaded w
  /\ forall p, In p (map path (files w)) ->
               In p (map path (files (snd (captureImage E id fingerprint imgs_folder
                                             rotation w)))).
Proof.
  run_py. cbn [opened log tick_opened].
  destruct (VideoCapture E id (opened w)) as [op rd rel]. cbn [isOpened read release_raises].
  destruct op, rd, rel; cbn; repeat split; auto using write_file_paths.
Qed.

Lemma putImage_frame (E : env) (fingerprint img_path : string) (w : world) :
  clock (snd (putImage E fingerprint img_path w)) = clock w
  /\ files (snd (putImage E fingerprint img_path w)) = files w.
Proof.
  unfold putImage. destruct (find_file img_path (files w)); split; reflexivity.
Qed.





Lemma printer_state_lacking (status : json) (key : string) :
  lacks_state status key -> printer_state status = Raise (KeyError key).
Proof.
  unfold lacks_state, printer_state, and_then, getitem.
  destruct status as [| | | | | members]; try contradiction.
  destruct (dict_get "printer" members) as [[| | | | | inner] |]; try contradiction.
  - intros [-> ->]. reflexivity.
  - intros ->. reflexivity.
Qed.

(** Line 275 (and 290) is not under the [try]: what the subscripts raise
    leaves the iteration. *)
Lemma step_lookup_error (E : env) (s : settings) (st : loop_pc * json) (w : world)
      (status : json) (e : exn) :
  in_loop st = true ->
  status_reply E (queried w) = Ok status ->
  printer_state status = Raise e ->
  step E s st w = (Raise e, requery w).
Proof.
  destruct st as [pc ps]. intros Hin Hreply Hstate.
  rewrite step_in_loop by exact Hin.
  unfold iteration, bind, try, lift, getPrinterStatus. rewrite Hreply, Hstate. reflexivity.
Qed.

(** C10: a reply that parses but lacks ["printer"], or whose ["printer"]
    lacks ["state"], raises [KeyError] outside the handler, and the loop
    ends with it after that one query, whatever fuel is left.  The query
    before the loop has no handler at all: the same reply, or any exception
    of the query itself, ends the process there. *)
Theorem lookup_error_ends_the_loop (E : env) (s : settings) (w : world) :
  (forall status key st fuel,
      status_reply E (queried w) = Ok status ->
      lacks_state status key ->
      in_loop st = true ->
      poll_loop E s (S fuel) st w = (Raise (KeyError key), requery w))
  /\ (forall status key fuel,
         status_reply E (queried w) = Ok status ->
         lacks_state status key ->
         monitor E s fuel w = (Raise (KeyError key), requery w))
  /\ (forall e fuel,
         status_reply E (queried w) = Raise e ->
         monitor E s fuel w = (Raise e, requery w)).
Proof.
  split; [| split].
  - intros status key st fuel Hreply Hlack Hin.
    cbn [poll_loop]. unfold bind.
    rewrite (step_lookup_error E s st w status (KeyError key) Hin Hreply
               (printer_state_lacking status key Hlack)).
    reflexivity.
  - intros status key fuel Hreply Hlack.
    unfold monitor, bind, lift, getPrinterStatus.
    rewrite Hreply, (printer_state_lacking status key Hlack). reflexivity.
  - intros e fuel Hreply.
    unfold monitor, bind, getPrinterStatus. rewrite Hreply. reflexivity.
Qed.

Lemma lookup_error_ends_the_loop_witness :
  poll_loop (Sample.with_status (fun _ => Ok (JObj [("printer", JObj [])])) Sample.calm)
    Sample.config 4 (AtPrinting, JStr "PRINTING") Sample.empty_folder
  = (Raise (KeyError "state"), requery Sample.empty_folder)
  /\ monitor (Sample.with_status (fun _ => Ok (JObj [("job", JNull)])) Sample.calm)
       Sample.config 4 Sample.empty_folder
     = (Raise (KeyError "printer"), requery Sample.empty_folder)
  /\ monitor (Sample.with_status (fun _ => Raise JSONDecodeError) Sample.calm)
       Sample.config 4 Sample.empty_folder
     = (Raise JSONDecodeError, requery Sample.empty_folder).
Proof.
  split; [| split].
  - apply (lookup_error_ends_the_loop
             (Sample.with_status (fun _ => Ok (JObj [("printer", JObj [])])) Sample.calm)
             Sample.config Sample.empty_folder)
      with (status := JObj [("printer", JObj [])]).
    + reflexivity.
    + split; reflexivity.
    + reflexivity.
  - apply (lookup_error_ends_the_loop
             (Sample.with_status (fun _ => Ok (JObj [("job", JNull)])) Sample.calm)
             Sample.config Sample.empty_folder)
      with (status := JObj [("job", JNull)]).
    + reflexivity.
    + reflexivity.
  - apply (lookup_error_ends_the_loop
             (Sample.with_status (fun _ => Raise JSONDecodeError) Sample.calm)
             Sample.config Sample.empty_folder).
    reflexivity.
Defined.

(** The loop takes no path away from the folder: nothing in it calls
    [deleteImages] or [os.remove]. *)
Lemma step_keeps_paths (E : env) (s : settings) (st : loop_pc * json) (w : world) (p : string) :
  In p (map path (files w)) -> In p (map path (files (snd (step E s st w)))).
Proof.
  intros Hp. destruct st as [pc ps]. destruct (in_loop (pc, ps)) eqn:Hin.
  - rewrite step_in_loop by exact Hin.
    unfold iteration, bind, try, lift, ret, getPrinterStatus, time_sleep.
    destruct (status_reply E (queried w)) as [status | e]; [| exact Hp].
    destruct (printer_state status) as [state | e]; [| exact Hp].
    pose proof (captureImage_frame E (camera s) (fingerprint s) (imgs_folder s)
                  (image_rotation s) (log CallGetStatus (tick_queried w))) as (_ & _ & Hc).
    specialize (Hc p Hp).
    destruct (captureImage _ _ _ _ _ _) as [[[q |] | e] w1]; cbn [snd] in Hc;
      try exact Hc.
    pose proof (putImage_frame E (fingerprint s) q w1) as (_ & Hf).
    destruct (putImage _ _ _ _) as [[[] | e] w2]; cbn [snd] in Hf |- *;
      cbn [log set_clock files]; rewrite Hf; exact Hc.
  - rewrite step_out_of_loop by exact Hin. exact Hp.
Qed.

Lemma poll_loop_keeps_paths (E : env) (s : settings) (fuel : nat) :
  forall st w p,
    In p (map path (files w)) ->
    In p (map path (files (snd (poll_loop E s fuel st w)))).
Proof.
  induction fuel as [| fuel IH]; intros st w p Hp; [exact Hp |].
  cbn [poll_loop]. unfold bind.
  pose proof (step_keeps_paths E s st w p Hp) as Hs.
  destruct (step E s st w) as [[st' | e] w']; cbn [snd] in Hs |- *; [| exact Hs].
  now apply IH.
Qed.

(** C1: the loop makes no retention sweep.  Every path that is in the
    folder is still there after any number of iterations; with a cap of 1,
    two iterations leave two images of the fingerprint on disk, and no
    [os.remove] was issued. *)
Theorem poll_loop_never_sweeps :
  (forall E s fuel st w p,
      In p (map path (files w)) ->
      In p (map path (files (snd (poll_loop E s fuel st w)))))
  /\ max_images Sample.config = JInt 1
  /\ on_disk Sample.fp after_two_rounds = 2%nat
  /\ filter (fun c => match c with CallRemove _ => true | _ => false end)
            (calls after_two_rounds) = [].
Proof.
  split; [| repeat split].
  intros E s fuel st w p. apply poll_loop_keeps_paths.
Qed.

Lemma poll_loop_never_sweeps_witness :
  In "/imgs/0123456789abcdef_2024-01-01_00_00_00.jpg"
     (map path (files (snd (poll_loop Sample.calm Sample.config 5
                              (AtNotPrinting, JStr "IDLE") Sample.two_images)))).
Proof.
  apply (proj1 poll_loop_never_sweeps). left. reflexivity.
Defined.

(* ================================================================== *)
(** ** Facts on the division that yields a [float] *)

(** The rounding of [n / dd]: the mantissa is within half of the quotient. *)
Lemma rounded_near (n dd : Z) :
  0 < dd -> 0 <= n ->
  let q := n / dd in
  let r := n mod dd in
  let m := if (dd <? 2 * r) || ((2 * r =? dd) && Z.odd q) then q + 1 else q in
  q <= m <= q + 1 /\ 2 * Z.abs (dd * m - n) <= dd /\ (r = 0 -> m = q).
Proof.
  intros Hdd Hn q r m.
  pose proof (Z.div_mod n dd ltac:(lia)) as Hdm.
  pose proof (Z.mod_pos_bound n dd Hdd) as Hr.
  fold q in Hdm. fold r in Hdm, Hr.
  subst m. destruct (dd <? 2 * r) eqn:H1; cbn [orb].
  - apply Z.ltb_lt in H1. repeat split; try lia.
  - apply Z.ltb_ge in H1. destruct (2 * r =? dd) eqn:H2; cbn [andb].
    + apply Z.eqb_eq in H2. destruct (Z.odd q); repeat split; try lia.
    + repeat split; try lia.
Qed.

(** Below 2^53 the quotient by 90 is rounded at 2^-6 or finer. *)
Lemma round_quotient_90_small (a : Z) :
  0 < a < 2 ^ 53 ->
  exists m e,
    Py.round_quotient a 90 = (m, e)
    /\ e <= -6
    /\ 0 <= m
    /\ 2 * Z.abs (90 * m - a * 2 ^ (- e)) <= 90
    /\ (a mod 90 = 0 -> m = a / 90 * 2 ^ (- e)).
Proof.
  intros [Ha Hlt].
  assert (Hla : Z.log2 a < 53) by (apply Z.log2_lt_pow2; lia).
  pose proof (Z.log2_nonneg a) as Hla0.
  unfold Py.round_quotient. change (Z.log2 90) with 6.
  set (e0 := Z.log2 a - 6 - 53).
  set (e := if _ <? 2 ^ 53 then e0 else e0 + 1).
  assert (He : e <= -6) by (subst e e0; destruct (_ <? _); lia).
  assert (Hsc : Py.scaled a 90 e = (a * 2 ^ (- e), 90)).
  { unfold Py.scaled. destruct (0 <=? e) eqn:H0; [apply Z.leb_le in H0; lia | reflexivity]. }
  rewrite Hsc. cbn [fst snd].
  assert (HP : 0 < 2 ^ (- e)) by (apply Z.pow_pos_nonneg; lia).
  destruct (rounded_near (a * 2 ^ (- e)) 90 ltac:(lia) ltac:(nia)) as (Hq & Hnear & Hexact).
  eexists _, e. split; [reflexivity |].
  split; [exact He |].
  split; [| split; [exact Hnear |]].
  - assert (0 <= a * 2 ^ (- e) / 90) by (apply Z.div_pos; nia). lia.
  - intros Hmod. rewrite Hexact.
    + apply Z.mod_divide in Hmod; [| lia]. destruct Hmod as [k Hk]. subst a.
      rewrite Z.div_mul by lia.
      replace (k * 90 * 2 ^ (- e)) with (k * 2 ^ (- e) * 90) by ring.
      rewrite Z.div_mul by lia. reflexivity.
    + apply Z.mod_divide in Hmod; [| lia]. destruct Hmod as [k Hk]. subst a.
      replace (k * 90 * 2 ^ (- e)) with (k * 2 ^ (- e) * 90) by ring.
      apply Z.mod_mul. lia.
Qed.

Lemma rem_abs_mod (r : Z) : Z.rem r 90 = 0 <-> Z.abs r mod 90 = 0.
Proof.
  rewrite Z.rem_divide by lia. rewrite Z.mod_divide by lia.
  symmetry. apply Z.divide_abs_r.
Qed.

(** Below 2^53 the float test of lines 188 and 229 is divisibility by 90,
    and the index is the quotient. *)
Lemma parse_rotation_small (r : Z) :
  Z.abs r < 2 ^ 53 ->
  parse_rotation r
  = if Z.rem r 90 =? 0
    then Py.list_getitem possible_rot (Z.quot r 90)
    else Raise TypeError.
Proof.
  intros Hsmall. unfold parse_rotation, Py.true_div.
  destruct (r =? 0) eqn:Hr0.
  - apply Z.eqb_eq in Hr0. subst r. reflexivity.
  - apply Z.eqb_neq in Hr0.
    destruct (round_quotient_90_small (Z.abs r) ltac:(lia))
      as (m & e & Hrq & He & Hm & Hnear & Hexact).
    rewrite Hrq.
    assert (H0e : (0 <=? e) = false) by (apply Z.leb_gt; lia).
    rewrite H0e. cbn [andb].
    unfold Py.int_eq_double, Py.int_of_double. cbn [Py.mant Py.expo]. rewrite H0e.
    set (P := 2 ^ (- e)) in *.
    assert (HP : 64 <= P).
    { subst P. change 64 with (2 ^ 6). apply Z.pow_le_mono_r; lia. }
    destruct (Z.rem r 90 =? 0) eqn:Hrem.
    + apply Z.eqb_eq in Hrem.
      assert (Hmod : Z.abs r mod 90 = 0) by now apply rem_abs_mod.
      specialize (Hexact Hmod).
      pose proof (Z.quot_rem' r 90) as Hqr. rewrite Hrem in Hqr.
      set (k := Z.quot r 90) in *.
      assert (Hr : r = 90 * k) by lia. clearbody k. clear Hqr. subst r.
      assert (Hsm : Z.sgn (90 * k) * m = k * P).
      { assert (Hdiv : Z.abs (90 * k) / 90 = Z.abs k).
        { rewrite Z.abs_mul. change (Z.abs 90) with 90.
          rewrite Z.mul_comm. apply Z.div_mul. lia. }
        assert (Hsg : Z.sgn (90 * k) = Z.sgn k).
        { rewrite Z.sgn_mul. change (Z.sgn 90) with 1. apply Z.mul_1_l. }
        assert (Hs : Z.sgn k * Z.abs k = k) by (destruct k; simpl; lia).
        rewrite Hexact, Hdiv, Hsg, Z.mul_assoc, Hs. reflexivity. }
      rewrite Hsm. rewrite Z.quot_mul by lia. rewrite Z.eqb_refl. reflexivity.
    + apply Z.eqb_neq in Hrem.
      destruct (Z.quot (Z.sgn r * m) P * P =? Z.sgn r * m) eqn:Htest; [| reflexivity].
      exfalso. apply Hrem. apply rem_abs_mod.
      apply Z.eqb_eq in Htest.
      set (t := Z.quot (Z.sgn r * m) P) in *.
      assert (Hm' : m = Z.sgn r * t * P).
      { assert (Hss : Z.sgn r * Z.sgn r = 1) by (destruct r; try lia; reflexivity).
        replace (Z.sgn r * t * P) with (Z.sgn r * (t * P)) by ring.
        rewrite Htest. rewrite Z.mul_assoc, Hss. lia. }
      set (u := Z.sgn r * t) in *.
      assert (Hzero : 90 * u - Z.abs r = 0).
      { rewrite Hm' in Hnear.
        replace (90 * (u * P) - Z.abs r * P) with ((90 * u - Z.abs r) * P) in Hnear by ring.
        rewrite Z.abs_mul in Hnear. rewrite (Z.abs_eq P) in Hnear by lia.
        nia. }
      apply Z.mod_divide; [lia |]. exists u. lia.
Qed.

Lemma getitem_outside (i : Z) :
  i <= -5 \/ 4 <= i -> Py.list_getitem possible_rot i = Raise IndexError.
Proof.
  intros H. unfold Py.list_getitem.
  cbn [possible_rot List.length Z.of_nat Pos.of_succ_nat Pos.succ].
  destruct (i <? 0) eqn:Hneg.
  - apply Z.ltb_lt in Hneg.
    assert (Hlt : (i + 4 <? 0) = true) by (apply Z.ltb_lt; lia).
    rewrite Hlt. reflexivity.
  - apply Z.ltb_ge in Hneg.
    assert (Hge : (4 <=? i) = true) by (apply Z.leb_le; lia).
    rewrite Hge, orb_true_r. reflexivity.
Qed.

(** From 2^53 on the rounded quotient by 90 is far beyond the list. *)
Lemma round_quotient_90_large (a : Z) :
  2 ^ 53 <= a ->
  exists m e,
    Py.round_quotient a 90 = (m, e)
    /\ (e < 0 -> 5 * 2 ^ (- e) <= m)
    /\ (0 <= e -> 5 <= m /\ m * 2 ^ e <= a)
    /\ (e < 0 -> a mod 90 = 0 -> m = a / 90 * 2 ^ (- e)).
Proof.
  intros Ha.
  assert (Hpos : 0 < a) by (change (2 ^ 53) with 9007199254740992 in Ha; lia).
  assert (Hla : 53 <= Z.log2 a) by (apply Z.log2_le_pow2; assumption).
  destruct (Z.log2_spec a Hpos) as [Hlow _].
  unfold Py.round_quotient. change (Z.log2 90) with 6.
  set (e0 := Z.log2 a - 6 - 53).
  set (e := if _ <? 2 ^ 53 then e0 else e0 + 1).
  assert (He : -6 <= e <= Z.log2 a - 58) by (subst e e0; destruct (_ <? _); lia).
  unfold Py.scaled. destruct (0 <=? e) eqn:H0; cbn [fst snd].
  - apply Z.leb_le in H0.
    assert (HA : 0 < 2 ^ e) by (apply Z.pow_pos_nonneg; lia).
    assert (HB : 2 ^ 58 <= 2 ^ (Z.log2 a - e)) by (apply Z.pow_le_mono_r; lia).
    assert (Hsplit : 2 ^ Z.log2 a = 2 ^ e * 2 ^ (Z.log2 a - e)).
    { rewrite <- Z.pow_add_r by lia. f_equal. lia. }
    change (2 ^ 58) with 288230376151711744 in HB.
    destruct (rounded_near a (90 * 2 ^ e) ltac:(lia) ltac:(lia)) as (Hq & _ & _).
    eexists _, e. split; [reflexivity |]. split; [lia |]. split; [| lia]. intros _.
    assert (Hq5 : 5 <= a / (90 * 2 ^ e)) by (apply Z.div_le_lower_bound; nia).
    split; [lia |].
    pose proof (Z.mul_div_le a (90 * 2 ^ e) ltac:(lia)) as Hle.
    set (Q := a / (90 * 2 ^ e)) in *.
    match goal with |- ?x * _ <= _ => set (m := x) in * end.
    assert (Hm : m * 2 ^ e <= (Q + 1) * 2 ^ e) by (apply Z.mul_le_mono_nonneg_r; lia).
    nia.
  - apply Z.leb_gt in H0.
    assert (HP : 0 < 2 ^ (- e)) by (apply Z.pow_pos_nonneg; lia).
    change (2 ^ 53) with 9007199254740992 in Ha.
    destruct (rounded_near (a * 2 ^ (- e)) 90 ltac:(lia) ltac:(nia)) as (Hq & _ & Hexact).
    eexists _, e. split; [reflexivity |]. split; [| split; [lia |]].
    + intros _.
      assert (5 * 2 ^ (- e) <= a * 2 ^ (- e) / 90) by (apply Z.div_le_lower_bound; nia).
      lia.
    + intros _ Hmod. apply Z.mod_divide in Hmod; [| lia]. destruct Hmod as [k Hk].
      subst a. rewrite Z.div_mul by lia.
      replace (k * 90 * 2 ^ (- e)) with (k * 2 ^ (- e) * 90) in * by ring.
      rewrite Hexact by (apply Z.mod_mul; lia).
      apply Z.div_mul. lia.
Qed.

(** From 2^53 on no rotation is accepted. *)
Lemma parse_rotation_large (r : Z) (rot : option rotate_code) :
  2 ^ 53 <= Z.abs r -> parse_rotation r <> Ok rot.
Proof.
  intros Hlarge. unfold parse_rotation, Py.true_div.
  assert (Hr0 : (r =? 0) = false).
  { apply Z.eqb_neq. intros ->. change (2 ^ 53) with 9007199254740992 in Hlarge.
    cbn in Hlarge. lia. }
  rewrite Hr0.
  destruct (round_quotient_90_large (Z.abs r) Hlarge) as (m & e & Hrq & Hneg & Hpos & _).
  rewrite Hrq.
  destruct ((0 <=? e) && (2 ^ 1024 <=? m * 2 ^ e)); [discriminate |].
  destruct (Py.int_eq_double _ _); [| discriminate].
  rewrite getitem_outside; [discriminate |].
  unfold Py.int_of_double. cbn [Py.mant Py.expo].
  assert (Hs : Z.sgn r = 1 \/ Z.sgn r = -1) by (destruct r; simpl; lia).
  destruct (0 <=? e) eqn:H0.
  - apply Z.leb_le in H0. destruct (Hpos H0) as [Hpos5 _].
    assert (HA : 0 < 2 ^ e) by (apply Z.pow_pos_nonneg; lia).
    destruct Hs as [-> | ->]; nia.
  - apply Z.leb_gt in H0. specialize (Hneg H0).
    assert (HP : 0 < 2 ^ (- e)) by (apply Z.pow_pos_nonneg; lia).
    assert (Hq : 5 <= m / 2 ^ (- e)) by (apply Z.div_le_lower_bound; lia).
    destruct Hs as [-> | ->].
    + rewrite Z.mul_1_l. rewrite Z.quot_div_nonneg by lia. lia.
    + replace (-1 * m) with (- m) by lia.
      rewrite Z.quot_opp_l by lia. rewrite Z.quot_div_nonneg by lia. lia.
Qed.

(** From 2^53 on a multiple of 90 is still seen as one: the index is far
    beyond the list, unless the quotient is beyond the largest [float],
    which takes a value of 2^1024 or more. *)
Lemma parse_rotation_large_multiple (r : Z) :
  2 ^ 53 <= Z.abs r ->
  Z.rem r 90 = 0 ->
  parse_rotation r = Raise IndexError
  \/ (2 ^ 1024 <= Z.abs r /\ parse_rotation r = Raise OverflowError).
Proof.
  intros Hlarge Hrem. unfold parse_rotation, Py.true_div.
  assert (Hr0 : (r =? 0) = false).
  { apply Z.eqb_neq. intros ->. change (2 ^ 53) with 9007199254740992 in Hlarge.
    cbn in Hlarge. lia. }
  rewrite Hr0.
  destruct (round_quotient_90_large (Z.abs r) Hlarge) as (m & e & Hrq & Hneg & Hpos & Hexact).
  rewrite Hrq.
  destruct ((0 <=? e) && (2 ^ 1024 <=? m * 2 ^ e)) eqn:Hover.
  { right. split; [| reflexivity].
    apply andb_true_iff in Hover as [H0 Hbig].
    apply Z.leb_le in H0, Hbig. destruct (Hpos H0) as [_ Hle].
    eapply Z.le_trans; [exact Hbig | exact Hle]. }
  left.
  assert (Hs : Z.sgn r = 1 \/ Z.sgn r = -1) by (destruct r; simpl; lia).
  unfold Py.int_eq_double, Py.int_of_double. cbn [Py.mant Py.expo].
  destruct (0 <=? e) eqn:H0.
  - apply Z.leb_le in H0. destruct (Hpos H0) as [Hpos5 _]. rewrite Z.eqb_refl.
    apply getitem_outside.
    assert (HA : 0 < 2 ^ e) by (apply Z.pow_pos_nonneg; lia).
    destruct Hs as [-> | ->]; nia.
  - apply Z.leb_gt in H0. specialize (Hneg H0).
    assert (HP : 0 < 2 ^ (- e)) by (apply Z.pow_pos_nonneg; lia).
    assert (Hmod : Z.abs r mod 90 = 0) by now apply rem_abs_mod.
    specialize (Hexact H0 Hmod).
    assert (Hsm : Z.sgn r * m = Z.sgn r * (Z.abs r / 90) * 2 ^ (- e))
      by (rewrite Hexact; ring).
    rewrite Hsm, Z.quot_mul, Z.eqb_refl by lia.
    apply getitem_outside.
    assert (Hq : 5 <= Z.abs r / 90).
    { apply Z.div_le_lower_bound; [lia |].
      change (2 ^ 53) with 9007199254740992 in Hlarge. lia. }
    destruct Hs as [-> | ->]; lia.
Qed.

(** Below 2^53 an integer is a [float]: the test of line 228 holds. *)
Lemma float_text_small (z : Z) :
  Z.abs z < 2 ^ 53 ->
  match Py.float_of_int_text z with
  | Some x => Py.int_eq_double z x
  | None => false
  end = true.
Proof.
  intros Hsmall. unfold Py.float_of_int_text, Py.true_div.
  destruct (z =? 0) eqn:Hz0.
  - apply Z.eqb_eq in Hz0. subst z. reflexivity.
  - apply Z.eqb_neq in Hz0.
    assert (Ha : 0 < Z.abs z) by lia.
    assert (Hla : Z.log2 (Z.abs z) < 53) by (apply Z.log2_lt_pow2; lia).
    assert (Hsa : Z.sgn z * Z.abs z = z) by (destruct z; simpl; lia).
    unfold Py.round_quotient. change (Z.log2 1) with 0.
    set (e0 := Z.log2 (Z.abs z) - 0 - 53).
    set (e := if _ <? 2 ^ 53 then e0 else e0 + 1).
    assert (He : e <= 0) by (subst e e0; destruct (_ <? _); lia).
    unfold Py.scaled. destruct (0 <=? e) eqn:H0; cbn [fst snd].
    + apply Z.leb_le in H0. assert (e = 0) by lia. clearbody e. subst e.
      change (1 * 2 ^ 0) with 1.
      rewrite Z.div_1_r, Z.mod_1_r. cbn [Z.mul Z.ltb Z.compare Z.eqb orb andb].
      cbn [Pos.compare Pos.compare_cont].
      assert (Hov : (2 ^ 1024 <=? Z.abs z * 2 ^ 0) = false).
      { apply Z.leb_gt. change (2 ^ 0) with 1. rewrite Z.mul_1_r.
        assert (2 ^ 53 < 2 ^ 1024) by (apply Z.pow_lt_mono_r; lia). lia. }
      rewrite Hov. cbn [andb].
      unfold Py.int_eq_double. cbn [Py.mant Py.expo Z.leb Z.compare].
      change (2 ^ 0) with 1. rewrite Z.mul_1_r, Hsa. apply Z.eqb_refl.
    + rewrite Z.div_1_r, Z.mod_1_r. cbn [Z.mul Z.ltb Z.compare Z.eqb orb andb].
      cbn [Pos.compare Pos.compare_cont].
      unfold Py.int_eq_double. cbn [Py.mant Py.expo]. rewrite H0.
      rewrite Z.mul_assoc, Hsa. apply Z.eqb_refl.
Qed.

(** A rotation that the parse accepts passes the test of line 228 too. *)
Lemma cli_rotation_accepts (r : Z) (rot : option rotate_code) :
  parse_rotation r = Ok rot -> cli_rotation r = Ok rot.
Proof.
  intros H. unfold cli_rotation.
  destruct (Z_lt_le_dec (Z.abs r) (2 ^ 53)) as [Hs | Hl].
  - rewrite float_text_small by exact Hs. exact H.
  - exfalso. exact (parse_rotation_large r rot Hl H).
Qed.

(* ================================================================== *)
(** ** Startup: the rotation *)

Lemma multiple_of_90 (r : Z) : Z.rem r 90 = 0 -> r = 90 * Z.quot r 90.
Proof.
  intros H. pose proof (Z.quot_rem' r 90) as Hqr. lia.
Qed.

(** From one full turn back to three quarter turns forward the code takes
    the angle and picks the rotation the angle stands for. *)
Lemma rotation_within_list (r : Z) :
  Z.rem r 90 = 0 -> -360 <= r <= 270 -> parse_rotation r = Ok (expected_rotation r).
Proof.
  intros Hrem Hrange. pose proof (multiple_of_90 r Hrem) as Hr.
  rewrite parse_rotation_small by (change (2 ^ 53) with 9007199254740992; lia).
  rewrite Hrem. cbn [Z.eqb].
  assert (Hq : Z.quot r 90 = -4 \/ Z.quot r 90 = -3 \/ Z.quot r 90 = -2 \/ Z.quot r 90 = -1
               \/ Z.quot r 90 = 0 \/ Z.quot r 90 = 1 \/ Z.quot r 90 = 2 \/ Z.quot r 90 = 3)
    by lia.
  destruct Hq as [Hq | [Hq | [Hq | [Hq | [Hq | [Hq | [Hq | Hq]]]]]]];
    rewrite Hq in Hr |- *; subst r; reflexivity.
Qed.

Lemma rotation_not_multiple (r : Z) :
  Z.abs r < 2 ^ 53 -> Z.rem r 90 <> 0 -> parse_rotation r = Raise TypeError.
Proof.
  intros Hsmall H. rewrite parse_rotation_small by exact Hsmall.
  apply Z.eqb_neq in H. now rewrite H.
Qed.

(** A multiple of 90 beyond the list is never accepted: it raises
    [IndexError], or, from 2^1024 on and only when the quotient is beyond
    the largest [float], [OverflowError]. *)
Lemma rotation_beyond_list (r : Z) :
  Z.rem r 90 = 0 -> r < -360 \/ 270 < r ->
  parse_rotation r = Raise IndexError
  \/ (2 ^ 1024 <= Z.abs r /\ parse_rotation r = Raise OverflowError).
Proof.
  intros Hrem Hrange. pose proof (multiple_of_90 r Hrem) as Hr.
  destruct (Z_lt_le_dec (Z.abs r) (2 ^ 53)) as [Hsmall | Hlarge].
  - left. rewrite parse_rotation_small by exact Hsmall.
    rewrite Hrem. cbn [Z.eqb]. apply getitem_outside. lia.
  - exact (parse_rotation_large_multiple r Hlarge Hrem).
Qed.

Lemma find_file_written (e : entry) (l : list entry) :
  find_file (path e) (write_file e l) = Some e.
Proof.
  unfold find_file. induction l as [| x l IH]; simpl.
  - now rewrite String.eqb_refl.
  - destruct (String.eqb (path x) (path e)) eqn:Hx; simpl.
    + now rewrite String.eqb_refl.
    + rewrite Hx. exact IH.
Qed.

(** The file a successful capture leaves holds the frame, rotated by the
    configured code when there is one. *)
Lemma captureImage_stores (E : env) (id : camera_id) (fingerprint imgs_folder : string)
      (rotation : option rotate_code) (w : world) (frame : image) :
  isOpened (VideoCapture E id (opened w)) = true ->
  read (VideoCapture E id (opened w)) = Some frame ->
  option_map data
    (find_file (img_path_at E fingerprint imgs_folder w)
       (files (snd (captureImage E id fingerprint imgs_folder rotation w))))
  = Some (stored rotation frame).
Proof.
  intros Hop Hrd. run_py. cbn [opened log tick_opened].
  rewrite Hop, Hrd. cbn [opened log tick_opened clock files set_files].
  destruct (release_raises _); cbn [snd files log set_files];
    unfold img_path_at;
    match goal with
    | |- context [write_file ?e _] =>
        change (option_map data (find_file (path e) (write_file e (files w)))
                = Some (stored rotation frame))
    end;
    rewrite find_file_written; destruct rotation; reflexivity.
Qed.

(** C8, beyond the list: [possible_rot] has four entries and the quotient
    is used as the index as it is, so a multiple of 90 below -360 or above
    270 is never accepted: it raises [IndexError], or, from 2^1024 on and
    only when the quotient is beyond the largest [float], [OverflowError];
    the command line, with its one more test, accepts none either; a
    rotation of 360 ends the process at startup on the command line and in
    the configuration file, where [except KeyError] does not catch it. *)
Theorem multiples_beyond_list_are_rejected :
  (forall r, Z.rem r 90 = 0 -> r < -360 \/ 270 < r ->
             parse_rotation r = Raise IndexError
             \/ (2 ^ 1024 <= Z.abs r /\ parse_rotation r = Raise OverflowError))
  /\ (forall r rot, Z.rem r 90 = 0 -> r < -360 \/ 270 < r -> cli_rotation r <> Ok rot)
  /\ (forall E fuel w, main_cli E args_full_turn fuel w = (Raise IndexError, w))
  /\ (forall E fuel w, main_json E config_full_turn fuel w = (Raise IndexError, w)).
Proof.
  split; [exact rotation_beyond_list |].
  split; [| split; intros E fuel w; vm_compute; reflexivity].
  intros r rot Hrem Hrange. unfold cli_rotation.
  destruct (match Py.float_of_int_text r with
            | Some x => Py.int_eq_double r x
            | None => false
            end); [| discriminate].
  destruct (rotation_beyond_list r Hrem Hrange) as [H | [_ H]]; rewrite H; discriminate.
Qed.

Lemma multiples_beyond_list_are_rejected_witness :
  (parse_rotation 360 = Raise IndexError
   \/ (2 ^ 1024 <= Z.abs 360 /\ parse_rotation 360 = Raise OverflowError))
  /\ (parse_rotation (-450) = Raise IndexError
      \/ (2 ^ 1024 <= Z.abs (-450) /\ parse_rotation (-450) = Raise OverflowError)).
Proof.
  split; apply (proj1 multiples_beyond_list_are_rejected); try reflexivity; lia.
Defined.

(* ================================================================== *)
(** ** Startup: the camera *)

(** When no candidate yields a frame the operator is never asked, and the
    selection ends with -1. *)
Lemma select_from_no_frame (E : env) (indices : list Z) :
  (forall i n, read (VideoCapture E (CamIndex i) n) = None) ->
  (forall i n, release_raises (VideoCapture E (CamIndex i) n) = false) ->
  forall w, fst (select_from E indices w) = Ok (-1).
Proof.
  intros Hrd Hrel. induction indices as [| i rest IH]; intros w; [reflexivity |].
  cbn [select_from]. run_py. cbn [opened log tick_opened].
  rewrite Hrd, Hrel. cbn [Z.eqb]. apply IH.
Qed.

(** When the operator declines every candidate, the selection ends with -1
    as well. *)
Lemma selectCamera_all_declined :
  fst (selectCamera Sample.calm (JStr "printer")
         (set_stdin ["n"; "no"; " N "; "No"; "n"; "n"; "n"; "n"; "n"; "n"] Sample.empty_folder))
  = Ok (-1).
Proof. reflexivity. Qed.

(** C4: [selectCamera] returns -1 when nothing was confirmed, and neither
    caller looks at the value.  On the command line, with an otherwise
    valid configuration and no [--camera], startup ends normally with
    [camera_id] -1, and the process goes on to the status query and the
    loop with it. *)
Theorem unconfirmed_camera_is_used
        (E : env) (args : cli_args) (w w0 w1 : world)
        (r m : Z) (rot : option rotate_code) (f d : string) :
  arg_camera args = None ->
  arg_rotate args = IntText r ->
  parse_rotation r = Ok rot ->
  arg_fingerprint args = Some f ->
  (16 <= String.length f)%nat ->
  arg_directory args = Some d ->
  arg_maximages args = IntText m ->
  ensure_folder w = (Ok tt, w0) ->
  selectCamera E (JStr (arg_name args)) w0 = (Ok (-1), w1) ->
  startup_cli E args w = (Ok (mkSettings f d rot (JInt m) (CamIndex (-1))), w1)
  /\ forall fuel,
       main_cli E args fuel w
       = monitor E (mkSettings f d rot (JInt m) (CamIndex (-1))) fuel w1.
Proof.
  intros Hcam Hrot Hparse Hfp Hlen Hdir Hmax Hfolder Hsel.
  assert (Hstart : startup_cli E args w
                   = (Ok (mkSettings f d rot (JInt m) (CamIndex (-1))), w1)).
  { unfold startup_cli, bind, lift, ret, and_then, required, py_int, check_fingerprint, raise.
    assert (Hlt : (Z.of_nat (String.length f) <? 16) = false) by (apply Z.ltb_ge; lia).
    rewrite Hrot. cbv beta iota.
    rewrite (cli_rotation_accepts r rot Hparse), Hfp, Hdir, Hmax, Hcam. cbv beta iota.
    rewrite Hlt. unfold ret. cbv beta iota. rewrite Hfolder. cbv beta iota.
    rewrite Hsel. reflexivity. }
  split; [exact Hstart |].
  intros fuel. unfold main_cli, bind. rewrite Hstart. reflexivity.
Qed.

Lemma unconfirmed_camera_is_used_witness :
  startup_cli no_camera Sample.args Sample.empty_folder
  = (Ok (mkSettings Sample.fp "/imgs" None (JInt 500) (CamIndex (-1))), after_selection)
  /\ forall fuel,
       main_cli no_camera Sample.args fuel Sample.empty_folder
       = monitor no_camera (mkSettings Sample.fp "/imgs" None (JInt 500) (CamIndex (-1)))
           fuel after_selection.
Proof.
  apply (unconfirmed_camera_is_used no_camera Sample.args Sample.empty_folder
           Sample.empty_folder after_selection 0 500 None Sample.fp "/imgs").
  - reflexivity.
  - reflexivity.
  - reflexivity.
  - reflexivity.
  - simpl. lia.
  - reflexivity.
  - reflexivity.
  - reflexivity.
  - reflexivity.
Defined.

(** The same run seen from outside: the status query is issued, the loop
    is entered, and the first capture opens camera -1. *)
Lemma unconfirmed_camera_reaches_capture :
  In CallGetStatus (calls (snd (main_cli no_camera Sample.args 1 Sample.empty_folder)))
  /\ In (CallVideoCapture (CamIndex (-1)))
        (calls (snd (main_cli no_camera Sample.args 2 Sample.empty_folder))).
Proof.
  vm_compute. split; tauto.
Qed.

(* ================================================================== *)
(** * Further properties of the code *)

(** ** The retention sweeper, beyond the cap of at least one *)

(** X1: in a folder that exists, given by its absolute path and holding
    distinct paths, with a cap of at least one that the count exceeds,
    [deleteImages] runs to its end, leaves exactly [max_images] images of
    the fingerprint, leaves every other file, adds none, and every image it
    removed was created no later than every image of the fingerprint it
    kept. *)
Theorem sweep_leaves_cap_newest
        (imgs_folder fingerprint : string) (max_images : Z) (w : world) :
  is_absolute imgs_folder = true ->
  folder w = Directory ->
  NoDup (map path (files w)) ->
  1 <= max_images < Z.of_nat (on_disk fingerprint w) ->
  exists w',
    deleteImages imgs_folder fingerprint max_images w = (Ok tt, w')
    /\ Z.of_nat (on_disk fingerprint w') = max_images
    /\ (forall e, In e (files w') -> In e (files w))
    /\ (forall e, In e (files w) -> matches fingerprint e = false -> In e (files w'))
    /\ (forall kept gone,
           In kept (files w') -> matches fingerprint kept = true ->
           In gone (files w) -> ~ In gone (files w') ->
           ctime gone <= ctime kept).
Proof.
  intros Habs Hdir Hnd Hcap.
  exact (sweep_keeps_newest imgs_folder fingerprint max_images w Habs Hdir Hnd Hcap).
Qed.

Lemma sweep_leaves_cap_newest_witness :
  exists w',
    deleteImages "/imgs" Sample.fp 1 Sample.two_images = (Ok tt, w')
    /\ Z.of_nat (on_disk Sample.fp w') = 1
    /\ (forall e, In e (files w') -> In e (files Sample.two_images))
    /\ (forall e, In e (files Sample.two_images) -> matches Sample.fp e = false ->
                  In e (files w'))
    /\ (forall kept gone,
           In kept (files w') -> matches Sample.fp kept = true ->
           In gone (files Sample.two_images) -> ~ In gone (files w') ->
           ctime gone <= ctime kept).
Proof.
  apply (sweep_leaves_cap_newest "/imgs" Sample.fp 1 Sample.two_images).
  - reflexivity.
  - reflexivity.
  - repeat constructor; simpl; intuition discriminate.
  - simpl. lia.
Defined.

(** X2: in a folder that exists, given by its absolute path, while the
    images of the fingerprint do not exceed the cap, the sweep returns
    normally, removes no file, and its one call is the change of the
    working directory to the folder. *)
Theorem sweep_within_cap_changes_nothing
        (imgs_folder fingerprint : string) (max_images : Z) (w : world) :
  is_absolute imgs_folder = true ->
  folder w = Directory ->
  Z.of_nat (on_disk fingerprint w) <= max_images ->
  deleteImages imgs_folder fingerprint max_images w
  = (Ok tt, log (CallChdir imgs_folder) w).
Proof.
  intros Habs Hdir Hcap. now apply sweep_within_cap.
Qed.

Lemma sweep_within_cap_changes_nothing_witness :
  deleteImages "/imgs" Sample.fp 2 Sample.two_images
  = (Ok tt, log (CallChdir "/imgs") Sample.two_images).
Proof.
  apply (sweep_within_cap_changes_nothing "/imgs" Sample.fp 2 Sample.two_images).
  - reflexivity.
  - reflexivity.
  - simpl. lia.
Defined.

(** X3: a negative cap is not refused: [filtered[0:-1*max_images]] is then
    the first [-max_images] counted images, so in a folder that exists,
    given by its absolute path and holding distinct paths, each sweep
    removes that many of the oldest images (all of them when there are
    fewer), however few are on disk. *)
Theorem sweep_negative_cap_removes_oldest
        (imgs_folder fingerprint : string) (max_images : Z) (w : world) :
  is_absolute imgs_folder = true ->
  folder w = Directory ->
  NoDup (map path (files w)) ->
  max_images < 0 ->
  exists w',
    deleteImages imgs_folder fingerprint max_images w = (Ok tt, w')
    /\ on_disk fingerprint w' = (on_disk fingerprint w - Z.to_nat (- max_images))%nat
    /\ (forall kept gone,
           In kept (files w') -> matches fingerprint kept = true ->
           In gone (files w) -> ~ In gone (files w') ->
           ctime gone <= ctime kept).
Proof.
  intros Habs Hdir Hnd Hneg.
  set (N := List.length (counted fingerprint w)).
  set (w1 := log (CallChdir imgs_folder) w).
  destruct (remove_oldest fingerprint (Z.to_nat (Z.min (- max_images) (Z.of_nat N))) w1 Hnd)
    as (w' & Hrun & _ & Hcount & Hold).
  change (counted fingerprint w1) with (counted fingerprint w) in Hrun.
  change (files w1) with (files w) in Hold.
  change (on_disk fingerprint w1) with (on_disk fingerprint w) in Hcount.
  exists w'. split; [| split; [| exact Hold]].
  - rewrite deleteImages_unfold, Hdir, Habs. fold N.
    assert (Hlt : (max_images <? Z.of_nat N) = true) by (apply Z.ltb_lt; lia).
    rewrite Hlt. unfold Py.slice_to. fold N.
    assert (Hpos : (-1 * max_images <? 0) = false) by (apply Z.ltb_ge; lia).
    rewrite Hpos. replace (-1 * max_images) with (- max_images) by lia. exact Hrun.
  - rewrite Hcount. unfold on_disk. rewrite <- (counted_length fingerprint w). fold N. lia.
Qed.

Lemma sweep_negative_cap_removes_oldest_witness :
  exists w',
    deleteImages "/imgs" Sample.fp (-1) Sample.two_images = (Ok tt, w')
    /\ on_disk Sample.fp w' = (on_disk Sample.fp Sample.two_images - Z.to_nat (- -1))%nat
    /\ (forall kept gone,
           In kept (files w') -> matches Sample.fp kept = true ->
           In gone (files Sample.two_images) -> ~ In gone (files w') ->
           ctime gone <= ctime kept).
Proof.
  apply (sweep_negative_cap_removes_oldest "/imgs" Sample.fp (-1) Sample.two_images).
  - reflexivity.
  - reflexivity.
  - repeat constructor; simpl; intuition discriminate.
  - lia.
Defined.

(** X4: in a folder that exists, given by its absolute path and holding
    distinct paths, with a cap of at least one, sweeping twice is sweeping
    once: the second sweep finds the count within the cap, changes the
    working directory again and removes nothing. *)
Theorem sweep_twice_is_sweep_once
        (imgs_folder fingerprint : string) (max_images : Z) (w : world) :
  is_absolute imgs_folder = true ->
  folder w = Directory ->
  NoDup (map path (files w)) ->
  1 <= max_images ->
  exists w',
    deleteImages imgs_folder fingerprint max_images w = (Ok tt, w')
    /\ deleteImages imgs_folder fingerprint max_images w'
       = (Ok tt, log (CallChdir imgs_folder) w').
Proof.
  intros Habs Hdir Hnd Hcap.
  destruct (Z_lt_le_dec max_images (Z.of_nat (on_disk fingerprint w))) as [Hover | Hin].
  - destruct (sweep_keeps_newest imgs_folder fingerprint max_images w Habs Hdir Hnd
                (conj Hcap Hover)) as (w' & Hrun & Hcount & _).
    exists w'. split; [exact Hrun |].
    apply sweep_within_cap; [exact Habs | | unfold on_disk; lia].
    pose proof (deleteImages_folder imgs_folder fingerprint max_images w) as Hf.
    rewrite Hrun in Hf. cbn [snd] in Hf. now rewrite Hf.
  - exists (log (CallChdir imgs_folder) w).
    split; [now apply sweep_within_cap |].
    now apply sweep_within_cap.
Qed.

Lemma sweep_twice_is_sweep_once_witness :
  exists w',
    deleteImages "/imgs" Sample.fp 1 Sample.two_images = (Ok tt, w')
    /\ deleteImages "/imgs" Sample.fp 1 w' = (Ok tt, log (CallChdir "/imgs") w').
Proof.
  apply (sweep_twice_is_sweep_once "/imgs" Sample.fp 1 Sample.two_images).
  - reflexivity.
  - reflexivity.
  - repeat constructor; simpl; intuition discriminate.
  - lia.
Defined.

(** X5: whatever the folder, the cap and the outcome, a sweep adds no file
    and removes none but files that hold both the fingerprint and [.jpg]
    in their path. *)
Theorem sweep_removes_matching_only
        (imgs_folder fingerprint : string) (max_images : Z) (w : world) (e : entry) :
  (In e (files (snd (deleteImages imgs_folder fingerprint max_images w))) -> In e (files w))
  /\ (In e (files w) -> matches fingerprint e = false ->
      In e (files (snd (deleteImages imgs_folder fingerprint max_images w)))).
Proof.
  destruct (deleteImages_files imgs_folder fingerprint max_images w) as [H | (_ & _ & H)];
    rewrite H; [tauto |].
  split.
  - apply remove_each_incl.
  - intros Hin Hm. apply remove_each_keeps; [exact Hin |].
    intros Hp. apply in_map_iff in Hp as (d & Hd & Hdin).
    unfold Py.slice_to in Hdin. apply In_firstn, counted_In in Hdin as [Hdw Hdm].
    unfold matches in Hm, Hdm. rewrite Hd in Hdm. congruence.
Qed.

Lemma sweep_removes_matching_only_witness :
  In Sample.stranger (files (snd (deleteImages "/imgs" Sample.fp 1 Sample.crowded_folder))).
Proof.
  apply (proj2 (sweep_removes_matching_only "/imgs" Sample.fp 1 Sample.crowded_folder
                  Sample.stranger)).
  - left. reflexivity.
  - reflexivity.
Defined.

(** X6: the order in which [deleteImages] evicts.  In a folder of distinct
    paths, whatever the cap: when the sweep removes a file [y], it also
    removes every image of the fingerprint that was created before [y], and
    every image of the fingerprint created at the same time that the folder
    lists before [y]; ties are evicted in listing order. *)
Theorem sweep_order_is_stable
        (imgs_folder fingerprint : string) (max_images : Z) (w : world) (x y : entry) :
  NoDup (map path (files w)) ->
  In x (files w) -> In y (files w) ->
  matches fingerprint x = true ->
  older w x y ->
  ~ In y (files (snd (deleteImages imgs_folder fingerprint max_images w))) ->
  ~ In x (files (snd (deleteImages imgs_folder fingerprint max_images w))).
Proof.
  intros Hnd Hx Hy Hmx Hord Hgone.
  destruct (sweep_removes_prefix imgs_folder fingerprint max_images w Hnd) as (k & Hk).
  apply (Hk x Hx). apply (Hk y Hy) in Hgone.
  assert (Hmy : matches fingerprint y = true)
    by (apply In_firstn, counted_In in Hgone; tauto).
  apply (listed_before_firstn (counted fingerprint w) x y); [| | exact Hgone].
  - unfold counted. apply NoDup_filter.
    eapply Permutation_NoDup; [apply Permutation_sym, sorted_perm |].
    eapply NoDup_map_inv; exact Hnd.
  - unfold counted. apply listed_before_filter; [exact Hmx | exact Hmy |].
    apply sorted_keeps_before; [eapply NoDup_map_inv; exact Hnd | exact Hx | exact Hy |].
    exact Hord.
Qed.

Lemma sweep_order_is_stable_witness :
  ~ In (Sample.img Sample.fp "2024-01-01_00_02_00" 60)
       (files (snd (deleteImages "/imgs" Sample.fp 1 Sample.tied_folder))).
Proof.
  apply (sweep_order_is_stable "/imgs" Sample.fp 1 Sample.tied_folder
           (Sample.img Sample.fp "2024-01-01_00_02_00" 60)
           (Sample.img Sample.fp "2024-01-01_00_00_00" 60)).
  - repeat constructor; simpl; intuition discriminate.
  - simpl. tauto.
  - simpl. tauto.
  - reflexivity.
  - right. simpl. split; [reflexivity |]. left. split; [reflexivity |]. now left.
  - vm_compute. intros [H | []]. discriminate.
Defined.

(** ** The image capturer and the uploader inside an iteration *)

Lemma write_file_others (n : entry) (l : list entry) (e : entry) :
  In e l -> path e <> path n -> In e (write_file n l).
Proof.
  induction l as [| x l IH]; simpl; intros Hin Hp; [contradiction |].
  destruct (String.eqb (path x) (path n)) eqn:Hx.
  - destruct Hin as [-> | Hin]; [| now right].
    apply String.eqb_eq in Hx. contradiction.
  - destruct Hin as [-> | Hin]; [now left | right; now apply IH].
Qed.

(** X7: a capture that goes well.  When the handle opens, a frame is read
    and the release succeeds, [captureImage] returns the path
    folder/fingerprint_timestamp.jpg, the file at that path holds the
    frame (rotated when a rotation is configured) with the clock as its
    creation time, every file of another path is left as it was, and the
    calls are open, read, write, release, in this order. *)
Theorem capture_writes_and_returns_path
        (E : env) (id : camera_id) (fingerprint imgs_folder : string)
        (rotation : option rotate_code) (w : world) (frame : image) :
  isOpened (VideoCapture E id (opened w)) = true ->
  read (VideoCapture E id (opened w)) = Some frame ->
  release_raises (VideoCapture E id (opened w)) = false ->
  fst (captureImage E id fingerprint imgs_folder rotation w)
  = Ok (Some (img_path_at E fingerprint imgs_folder w))
  /\ find_file (img_path_at E fingerprint imgs_folder w)
       (files (snd (captureImage E id fingerprint imgs_folder rotation w)))
     = Some (mkEntry (img_path_at E fingerprint imgs_folder w) (clock w)
               (stored rotation frame))
  /\ (forall e, In e (files w) -> path e <> img_path_at E fingerprint imgs_folder w ->
                In e (files (snd (captureImage E id fingerprint imgs_folder rotation w))))
  /\ calls (snd (captureImage E id fingerprint imgs_folder rotation w))
     = CallRelease
       :: CallImwrite (img_path_at E fingerprint imgs_folder w) (stored rotation frame)
       :: CallRead :: CallVideoCapture id :: calls w.
Proof.
  intros Hop Hrd Hrel.
  rewrite captureImage_result, captureImage_calls, Hop, Hrd, Hrel.
  split; [reflexivity | split; [| split; [| reflexivity]]].
  - run_py. cbn [opened log tick_opened]. rewrite Hop, Hrd, Hrel.
    cbn [snd files log set_files clock tick_opened].
    exact (find_file_written
             (mkEntry (img_path_at E fingerprint imgs_folder w) (clock w)
                (stored rotation frame)) (files w)).
  - intros e Hin Hp. run_py. cbn [opened log tick_opened]. rewrite Hop, Hrd, Hrel.
    cbn [snd files log set_files clock tick_opened].
    apply (write_file_others
             (mkEntry (img_path_at E fingerprint imgs_folder w) (clock w)
                (stored rotation frame))); assumption.
Qed.

Lemma capture_writes_and_returns_path_witness :
  fst (captureImage Sample.calm (CamIndex 0) Sample.fp "/imgs" (Some ROTATE_180)
         Sample.two_images)
  = Ok (Some (img_path_at Sample.calm Sample.fp "/imgs" Sample.two_images))
  /\ find_file (img_path_at Sample.calm Sample.fp "/imgs" Sample.two_images)
       (files (snd (captureImage Sample.calm (CamIndex 0) Sample.fp "/imgs"
                      (Some ROTATE_180) Sample.two_images)))
     = Some (mkEntry (img_path_at Sample.calm Sample.fp "/imgs" Sample.two_images)
               (clock Sample.two_images) (stored (Some ROTATE_180) (Frame 0)))
  /\ (forall e, In e (files Sample.two_images) ->
                path e <> img_path_at Sample.calm Sample.fp "/imgs" Sample.two_images ->
                In e (files (snd (captureImage Sample.calm (CamIndex 0) Sample.fp "/imgs"
                                    (Some ROTATE_180) Sample.two_images))))
  /\ calls (snd (captureImage Sample.calm (CamIndex 0) Sample.fp "/imgs"
                   (Some ROTATE_180) Sample.two_images))
     = CallRelease
       :: CallImwrite (img_path_at Sample.calm Sample.fp "/imgs" Sample.two_images)
            (stored (Some ROTATE_180) (Frame 0))
       :: CallRead :: CallVideoCapture (CamIndex 0) :: calls Sample.two_images.
Proof.
  apply (capture_writes_and_returns_path Sample.calm (CamIndex 0) Sample.fp "/imgs"
           (Some ROTATE_180) Sample.two_images (Frame 0)); reflexivity.
Defined.

(** One iteration in which the query returns the state the loop holds,
    the camera delivers and the upload succeeds. *)
Lemma step_steady (E : env) (s : settings) (pc : loop_pc) (state : json) (w : world) :
  in_loop (pc, state) = true ->
  reports E (queried w) state ->
  delivers (VideoCapture E (camera s) (opened w)) = true ->
  put_reply E (uploaded w) = Ok tt ->
  exists w1,
    step E s (pc, state) w = (Ok (pc, state), w1)
    /\ queried w1 = S (queried w)
    /\ opened w1 = S (opened w)
    /\ uploaded w1 = S (uploaded w)
    /\ uploads (calls w1) = S (uploads (calls w))
    /\ clock w1 = clock w + interval pc.
Proof.
  intros Hin (status & Hreply & Hstate) Hcam Hput.
  unfold delivers in Hcam.
  apply andb_true_iff in Hcam as [Hcam Hrel]. apply andb_true_iff in Hcam as [Hop Hrd].
  apply negb_true_iff in Hrel.
  destruct (read (VideoCapture E (camera s) (opened w))) as [frame |] eqn:Hframe;
    [| discriminate].
  rewrite step_in_loop by exact Hin.
  unfold iteration. run_py. rewrite Hreply, Hstate.
  cbn [opened log tick_opened tick_queried]. rewrite Hop, Hframe, Hrel.
  cbv beta iota delta [ret raise].
  cbn [files log set_files clock tick_opened tick_queried uploaded].
  pose proof (find_file_written
                (mkEntry (img_path_at E (fingerprint s) (imgs_folder s) w) (clock w)
                   (stored (image_rotation s) frame)) (files w)) as Hfound.
  cbn [path] in Hfound. unfold img_path_at, stored, path_join in *.
  rewrite Hfound, Hput. eexists. split; [reflexivity |]. repeat split.
Qed.

(** X8: a steady run.  While every query returns the state the loop holds,
    the camera delivers a frame each time and every upload succeeds, [n]
    turns of the loop are [n] iterations of the same inner [while]: [n]
    queries, [n] captures and [n] uploads, and the clock has moved by [n]
    times the interval of that [while], 60 seconds while printing and 120
    otherwise. *)
Theorem steady_loop_uploads_each_interval
        (E : env) (s : settings) (pc : loop_pc) (state : json) (n : nat) (w : world) :
  in_loop (pc, state) = true ->
  (forall i, (i < n)%nat -> reports E (queried w + i) state) ->
  (forall i, (i < n)%nat -> delivers (VideoCapture E (camera s) (opened w + i)) = true) ->
  (forall i, (i < n)%nat -> put_reply E (uploaded w + i) = Ok tt) ->
  fst (poll_loop E s n (pc, state) w) = Ok (pc, state)
  /\ queried (snd (poll_loop E s n (pc, state) w)) = (queried w + n)%nat
  /\ opened (snd (poll_loop E s n (pc, state) w)) = (opened w + n)%nat
  /\ uploaded (snd (poll_loop E s n (pc, state) w)) = (uploaded w + n)%nat
  /\ uploads (calls (snd (poll_loop E s n (pc, state) w))) = (uploads (calls w) + n)%nat
  /\ clock (snd (poll_loop E s n (pc, state) w)) = clock w + interval pc * Z.of_nat n.
Proof.
  intros Hin. revert w. induction n as [| n IH]; intros w Hq Hc Hu.
  - cbn [poll_loop]. unfold ret. cbn [fst snd]. repeat split; lia.
  - destruct (step_steady E s pc state w Hin) as (w1 & Hstep & Hq1 & Ho1 & Hu1 & Hp1 & Hc1).
    + rewrite <- (Nat.add_0_r (queried w)). apply Hq. lia.
    + rewrite <- (Nat.add_0_r (opened w)). apply Hc. lia.
    + rewrite <- (Nat.add_0_r (uploaded w)). apply Hu. lia.
    + cbn [poll_loop]. unfold bind at 1 2 3 4 5 6. rewrite Hstep.
      destruct (IH w1) as (Hr & Hq' & Ho' & Hu' & Hp' & Hc').
      * intros i Hi. rewrite Hq1. replace (S (queried w) + i)%nat with (queried w + S i)%nat
          by lia. apply Hq. lia.
      * intros i Hi. rewrite Ho1. replace (S (opened w) + i)%nat with (opened w + S i)%nat
          by lia. apply Hc. lia.
      * intros i Hi. rewrite Hu1. replace (S (uploaded w) + i)%nat
          with (uploaded w + S i)%nat by lia. apply Hu. lia.
      * rewrite Hr, Hq', Ho', Hu', Hp', Hc', Hq1, Ho1, Hu1, Hp1, Hc1.
        repeat split; lia.
Qed.

Lemma steady_loop_uploads_each_interval_witness :
  fst (poll_loop Sample.calm Sample.config 3 (AtNotPrinting, JStr "IDLE") Sample.empty_folder)
  = Ok (AtNotPrinting, JStr "IDLE")
  /\ queried (snd (poll_loop Sample.calm Sample.config 3 (AtNotPrinting, JStr "IDLE")
                     Sample.empty_folder))
     = (queried Sample.empty_folder + 3)%nat
  /\ opened (snd (poll_loop Sample.calm Sample.config 3 (AtNotPrinting, JStr "IDLE")
                    Sample.empty_folder))
     = (opened Sample.empty_folder + 3)%nat
  /\ uploaded (snd (poll_loop Sample.calm Sample.config 3 (AtNotPrinting, JStr "IDLE")
                      Sample.empty_folder))
     = (uploaded Sample.empty_folder + 3)%nat
  /\ uploads (calls (snd (poll_loop Sample.calm Sample.config 3 (AtNotPrinting, JStr "IDLE")
                            Sample.empty_folder)))
     = (uploads (calls Sample.empty_folder) + 3)%nat
  /\ clock (snd (poll_loop Sample.calm Sample.config 3 (AtNotPrinting, JStr "IDLE")
                   Sample.empty_folder))
     = clock Sample.empty_folder + interval AtNotPrinting * Z.of_nat 3.
Proof.
  apply (steady_loop_uploads_each_interval Sample.calm Sample.config AtNotPrinting
           (JStr "IDLE") 3 Sample.empty_folder).
  - reflexivity.
  - intros i _. exists (Sample.status_of "IDLE"). split; reflexivity.
  - intros i _. reflexivity.
  - intros i _. reflexivity.
Defined.

(** X9: an iteration in which everything works.  The query returns a
    status with a state, the camera delivers a frame, the upload succeeds:
    the iteration makes exactly the calls query, open, read, write, release,
    upload, sleep, in this order; what is uploaded is the image just stored
    at the path just written; the clock moves by the interval of the inner
    loop, and the state read becomes the loop's state. *)
Theorem iteration_uploads_what_it_stored
        (E : env) (s : settings) (pc : loop_pc) (printer_status : json) (w : world)
        (status state : json) (frame : image) :
  in_loop (pc, printer_status) = true ->
  status_reply E (queried w) = Ok status ->
  printer_state status = Ok state ->
  isOpened (VideoCapture E (camera s) (opened w)) = true ->
  read (VideoCapture E (camera s) (opened w)) = Some frame ->
  release_raises (VideoCapture E (camera s) (opened w)) = false ->
  put_reply E (uploaded w) = Ok tt ->
  fst (step E s (pc, printer_status) w) = Ok (pc, state)
  /\ calls (snd (step E s (pc, printer_status) w))
     = CallSleep (interval pc)
       :: CallPut (img_path_at E (fingerprint s) (imgs_folder s) w)
            (stored (image_rotation s) frame)
       :: CallRelease
       :: CallImwrite (img_path_at E (fingerprint s) (imgs_folder s) w)
            (stored (image_rotation s) frame)
       :: CallRead :: CallVideoCapture (camera s) :: CallGetStatus :: calls w
  /\ clock (snd (step E s (pc, printer_status) w)) = clock w + interval pc
  /\ uploaded (snd (step E s (pc, printer_status) w)) = S (uploaded w).
Proof.
  intros Hin Hreply Hstate Hop Hrd Hrel Hput.
  rewrite step_in_loop by exact Hin.
  unfold iteration. run_py. rewrite Hreply, Hstate.
  cbn [opened log tick_opened tick_queried]. rewrite Hop, Hrd, Hrel.
  cbv beta iota delta [ret raise].
  cbn [files log set_files clock tick_opened tick_queried uploaded].
  pose proof (find_file_written
                (mkEntry (img_path_at E (fingerprint s) (imgs_folder s) w) (clock w)
                   (stored (image_rotation s) frame)) (files w)) as Hfound.
  cbn [path] in Hfound. unfold img_path_at, stored, path_join in *.
  rewrite Hfound, Hput. repeat split.
Qed.

Lemma iteration_uploads_what_it_stored_witness :
  fst (step Sample.calm Sample.config (AtNotPrinting, JStr "IDLE") Sample.empty_folder)
  = Ok (AtNotPrinting, JStr "IDLE")
  /\ calls (snd (step Sample.calm Sample.config (AtNotPrinting, JStr "IDLE")
                   Sample.empty_folder))
     = CallSleep (interval AtNotPrinting)
       :: CallPut (img_path_at Sample.calm (fingerprint Sample.config)
                     (imgs_folder Sample.config) Sample.empty_folder)
            (stored (image_rotation Sample.config) (Frame 0))
       :: CallRelease
       :: CallImwrite (img_path_at Sample.calm (fingerprint Sample.config)
                         (imgs_folder Sample.config) Sample.empty_folder)
            (stored (image_rotation Sample.config) (Frame 0))
       :: CallRead :: CallVideoCapture (camera Sample.config) :: CallGetStatus
       :: calls Sample.empty_folder
  /\ clock (snd (step Sample.calm Sample.config (AtNotPrinting, JStr "IDLE")
                   Sample.empty_folder))
     = clock Sample.empty_folder + interval AtNotPrinting
  /\ uploaded (snd (step Sample.calm Sample.config (AtNotPrinting, JStr "IDLE")
                      Sample.empty_folder))
     = S (uploaded Sample.empty_folder).
Proof.
  apply (iteration_uploads_what_it_stored Sample.calm Sample.config AtNotPrinting
           (JStr "IDLE") Sample.empty_folder (Sample.status_of "IDLE") (JStr "IDLE")
           (Frame 0)); reflexivity.
Defined.

(** X10: an upload that raises is not caught.  [putImage] is called outside
    the [try], so when [requests.put] raises, the iteration ends with that
    exception after the image was written: the image stays on disk, there
    is no sleep, and the loop ends with the exception whatever fuel is
    left. *)
Theorem upload_exception_ends_the_loop
        (E : env) (s : settings) (pc : loop_pc) (printer_status : json) (w : world)
        (status state : json) (frame : image) (e : exn) :
  in_loop (pc, printer_status) = true ->
  status_reply E (queried w) = Ok status ->
  printer_state status = Ok state ->
  isOpened (VideoCapture E (camera s) (opened w)) = true ->
  read (VideoCapture E (camera s) (opened w)) = Some frame ->
  release_raises (VideoCapture E (camera s) (opened w)) = false ->
  put_reply E (uploaded w) = Raise e ->
  fst (step E s (pc, printer_status) w) = Raise e
  /\ In (img_path_at E (fingerprint s) (imgs_folder s) w)
        (map path (files (snd (step E s (pc, printer_status) w))))
  /\ clock (snd (step E s (pc, printer_status) w)) = clock w
  /\ forall fuel, fst (poll_loop E s (S fuel) (pc, printer_status) w) = Raise e.
Proof.
  intros Hin Hreply Hstate Hop Hrd Hrel Hput.
  assert (Hstep : fst (step E s (pc, printer_status) w) = Raise e
                  /\ In (img_path_at E (fingerprint s) (imgs_folder s) w)
                        (map path (files (snd (step E s (pc, printer_status) w))))
                  /\ clock (snd (step E s (pc, printer_status) w)) = clock w).
  { rewrite step_in_loop by exact Hin.
    unfold iteration. run_py. rewrite Hreply, Hstate.
    cbn [opened log tick_opened tick_queried]. rewrite Hop, Hrd, Hrel.
    cbv beta iota delta [ret raise].
    cbn [files log set_files clock tick_opened tick_queried uploaded].
    pose proof (find_file_written
                  (mkEntry (img_path_at E (fingerprint s) (imgs_folder s) w) (clock w)
                     (stored (image_rotation s) frame)) (files w)) as Hfound.
    cbn [path] in Hfound. unfold img_path_at, stored, path_join in *.
    rewrite Hfound, Hput. cbn [fst snd files log tick_uploaded clock].
    repeat split.
    unfold find_file in Hfound. apply find_some in Hfound as [Hfound _].
    apply in_map_iff. eexists. split; [| exact Hfound]. reflexivity. }
  destruct Hstep as (Hraise & Hdisk & Hclock).
  repeat split; try assumption.
  intros fuel. cbn [poll_loop]. unfold bind.
  destruct (step E s (pc, printer_status) w) as [[st | e'] w'];
    cbn [fst] in Hraise; [discriminate | exact Hraise].
Qed.

Lemma upload_exception_ends_the_loop_witness :
  fst (step (mkEnv (VideoCapture Sample.calm) (status_reply Sample.calm)
               (fun _ => Raise RequestException) (strftime Sample.calm)
               (verifyCamera Sample.calm))
         Sample.config (AtNotPrinting, JStr "IDLE") Sample.empty_folder)
  = Raise RequestException
  /\ In (img_path_at (mkEnv (VideoCapture Sample.calm) (status_reply Sample.calm)
                        (fun _ => Raise RequestException) (strftime Sample.calm)
                        (verifyCamera Sample.calm))
           (fingerprint Sample.config) (imgs_folder Sample.config) Sample.empty_folder)
        (map path
           (files (snd (step (mkEnv (VideoCapture Sample.calm) (status_reply Sample.calm)
                                (fun _ => Raise RequestException) (strftime Sample.calm)
                                (verifyCamera Sample.calm))
                          Sample.config (AtNotPrinting, JStr "IDLE") Sample.empty_folder))))
  /\ clock (snd (step (mkEnv (VideoCapture Sample.calm) (status_reply Sample.calm)
                         (fun _ => Raise RequestException) (strftime Sample.calm)
                         (verifyCamera Sample.calm))
                   Sample.config (AtNotPrinting, JStr "IDLE") Sample.empty_folder))
     = clock Sample.empty_folder
  /\ forall fuel,
       fst (poll_loop (mkEnv (VideoCapture Sample.calm) (status_reply Sample.calm)
                         (fun _ => Raise RequestException) (strftime Sample.calm)
                         (verifyCamera Sample.calm))
              Sample.config (S fuel) (AtNotPrinting, JStr "IDLE") Sample.empty_folder)
       = Raise RequestException.
Proof.
  apply (upload_exception_ends_the_loop
           (mkEnv (VideoCapture Sample.calm) (status_reply Sample.calm)
              (fun _ => Raise RequestException) (strftime Sample.calm)
              (verifyCamera Sample.calm))
           Sample.config AtNotPrinting (JStr "IDLE") Sample.empty_folder
           (Sample.status_of "IDLE") (JStr "IDLE") (Frame 0) RequestException);
    reflexivity.
Defined.

(** X11: the one way an iteration skips the upload.  When [cap.release()]
    raises (after a frame was stored, or on a handle that did not open),
    [captureImage] returns [None]; the iteration then makes no upload,
    sleeps its interval and goes on, and an image that was written stays on
    disk without having been sent. *)
Theorem release_failure_skips_upload
        (E : env) (s : settings) (pc : loop_pc) (printer_status : json) (w : world)
        (status state : json) :
  in_loop (pc, printer_status) = true ->
  status_reply E (queried w) = Ok status ->
  printer_state status = Ok state ->
  release_raises (VideoCapture E (camera s) (opened w)) = true ->
  isOpened (VideoCapture E (camera s) (opened w)) = false
  \/ read (VideoCapture E (camera s) (opened w)) <> None ->
  fst (captureImage E (camera s) (fingerprint s) (imgs_folder s) (image_rotation s) w)
  = Ok None
  /\ fst (step E s (pc, printer_status) w) = Ok (pc, state)
  /\ uploaded (snd (step E s (pc, printer_status) w)) = uploaded w
  /\ hd_error (calls (snd (step E s (pc, printer_status) w)))
     = Some (CallSleep (interval pc))
  /\ (isOpened (VideoCapture E (camera s) (opened w)) = true ->
      In (img_path_at E (fingerprint s) (imgs_folder s) w)
         (map path (files (snd (step E s (pc, printer_status) w))))).
Proof.
  intros Hin Hreply Hstate Hrel Hcap.
  split.
  - rewrite captureImage_result, Hrel.
    destruct (isOpened _); [| reflexivity].
    destruct (read _); [reflexivity |]. destruct Hcap as [Hcap | Hcap]; congruence.
  - rewrite step_in_loop by exact Hin.
    unfold iteration. run_py. rewrite Hreply, Hstate.
    cbn [opened log tick_opened tick_queried]. rewrite Hrel.
    destruct (isOpened (VideoCapture E (camera s) (opened w))) eqn:Hop.
    + destruct (read (VideoCapture E (camera s) (opened w))) as [frame |] eqn:Hrd;
        [| destruct Hcap as [Hcap | Hcap]; congruence].
      cbv beta iota delta [ret raise].
      cbn [fst snd files log set_files set_clock clock tick_opened tick_queried uploaded
           calls hd_error].
      repeat split. intros _.
      pose proof (find_file_written
                    (mkEntry (img_path_at E (fingerprint s) (imgs_folder s) w) (clock w)
                       (stored (image_rotation s) frame)) (files w)) as Hfound.
      unfold find_file in Hfound. apply find_some in Hfound as [Hfound _].
      apply in_map_iff. eexists. split; [| exact Hfound]. reflexivity.
    + cbv beta iota delta [ret raise].
      cbn [fst snd files log set_files set_clock clock tick_opened tick_queried uploaded
           calls hd_error].
      repeat split. intros H. discriminate H.
Qed.

Lemma release_failure_skips_upload_witness :
  fst (captureImage (Sample.with_camera (mkCapture true (Some (Frame 0)) true) Sample.calm)
         (camera Sample.config) (fingerprint Sample.config) (imgs_folder Sample.config)
         (image_rotation Sample.config) Sample.empty_folder)
  = Ok None
  /\ fst (step (Sample.with_camera (mkCapture true (Some (Frame 0)) true) Sample.calm)
            Sample.config (AtNotPrinting, JStr "IDLE") Sample.empty_folder)
     = Ok (AtNotPrinting, JStr "IDLE")
  /\ uploaded (snd (step (Sample.with_camera (mkCapture true (Some (Frame 0)) true)
                            Sample.calm)
                      Sample.config (AtNotPrinting, JStr "IDLE") Sample.empty_folder))
     = uploaded Sample.empty_folder
  /\ hd_error (calls (snd (step (Sample.with_camera (mkCapture true (Some (Frame 0)) true)
                                   Sample.calm)
                             Sample.config (AtNotPrinting, JStr "IDLE")
                             Sample.empty_folder)))
     = Some (CallSleep (interval AtNotPrinting))
  /\ (isOpened (VideoCapture (Sample.with_camera (mkCapture true (Some (Frame 0)) true)
                                Sample.calm)
                  (camera Sample.config) (opened Sample.empty_folder)) = true ->
      In (img_path_at (Sample.with_camera (mkCapture true (Some (Frame 0)) true) Sample.calm)
            (fingerprint Sample.config) (imgs_folder Sample.config) Sample.empty_folder)
         (map path
            (files (snd (step (Sample.with_camera (mkCapture true (Some (Frame 0)) true)
                                 Sample.calm)
                           Sample.config (AtNotPrinting, JStr "IDLE")
                           Sample.empty_folder))))).
Proof.
  apply (release_failure_skips_upload
           (Sample.with_camera (mkCapture true (Some (Frame 0)) true) Sample.calm)
           Sample.config AtNotPrinting (JStr "IDLE") Sample.empty_folder
           (Sample.status_of "IDLE") (JStr "IDLE")).
  - reflexivity.
  - reflexivity.
  - reflexivity.
  - reflexivity.
  - right. discriminate.
Defined.

(** ** The camera selection *)

Ltac run_select :=
  cbn [select_from];
  unfold bind, ret, cv2_VideoCapture, cap_read, cap_release, ask_light_on;
  cbv beta iota; cbn [opened log tick_opened stdin].

Ltac settle := cbv beta iota; cbn [opened log tick_opened stdin set_stdin].

Ltac absurd_outcome := cbv beta iota; cbn [fst]; intros Habs; discriminate Habs.

Lemma select_from_range (E : env) (indices : list Z) :
  forall w i, fst (select_from E indices w) = Ok i -> i = -1 \/ In i indices.
Proof.
  induction indices as [| a rest IH]; intros w i.
  - cbn. intros H. inversion H. now left.
  - run_select.
    destruct (read (VideoCapture E (CamIndex a) (opened w))) as [frame |]; settle.
    + destruct (answer (stdin w)) as [[[|] | e] lines]; settle;
        [| | absurd_outcome].
      * destruct (release_raises _); [absurd_outcome |].
        destruct (a =? -1) eqn:Ha.
        -- intros H. apply IH in H. simpl. tauto.
        -- cbn. intros H. inversion H. simpl. tauto.
      * destruct (release_raises _); [absurd_outcome |].
        cbn [Z.eqb]. intros H. apply IH in H. simpl. tauto.
    + destruct (release_raises _); [absurd_outcome |].
      cbn [Z.eqb]. intros H. apply IH in H. simpl. tauto.
Qed.

(** X12: what [selectCamera] can return: -1, or one of the indices 0 to 9
    that it probes. *)
Theorem selectCamera_returns_probed_index (E : env) (name : json) (w : world) (i : Z) :
  fst (selectCamera E name w) = Ok i -> i = -1 \/ 0 <= i <= 9.
Proof.
  intros H. apply select_from_range in H. destruct H as [H | H]; [now left |].
  right. simpl in H. intuition lia.
Qed.

Lemma selectCamera_returns_probed_index_witness :
  fst (selectCamera Sample.calm (JStr "printer")
         (set_stdin ["n"; "no"; "yes"] Sample.empty_folder)) = Ok 2
  /\ (2 = -1 \/ 0 <= 2 <= 9).
Proof.
  split; [reflexivity |].
  apply (selectCamera_returns_probed_index Sample.calm (JStr "printer")
           (set_stdin ["n"; "no"; "yes"] Sample.empty_folder) 2).
  reflexivity.
Defined.

(** X13: when the selection returns, every handle it opened has been
    released: the calls it added hold as many releases as it opened
    handles. *)
Theorem selectCamera_releases_what_it_opens (E : env) (indices : list Z) :
  forall (w : world) (i : Z) (w' : world),
    select_from E indices w = (Ok i, w') ->
    (releases (calls w') + opened w = releases (calls w) + opened w')%nat.
Proof.
  induction indices as [| a rest IH]; intros w i w'.
  - cbn. intros H. inversion H. reflexivity.
  - run_select.
    assert (Hnext : forall w1,
               releases (calls w1) = S (releases (calls w)) ->
               opened w1 = S (opened w) ->
               select_from E rest w1 = (Ok i, w') ->
               (releases (calls w') + opened w = releases (calls w) + opened w')%nat).
    { intros w1 Hr Ho H. apply IH in H. lia. }
    destruct (read (VideoCapture E (CamIndex a) (opened w))) as [frame |]; settle.
    + destruct (answer (stdin w)) as [[[|] | e] lines]; settle;
        [| | absurd_outcome].
      * destruct (release_raises _); [absurd_outcome |].
        destruct (a =? -1).
        -- apply Hnext; reflexivity.
        -- intros H. inversion H. subst. unfold releases. cbn. lia.
      * destruct (release_raises _); [absurd_outcome |].
        cbn [Z.eqb]. apply Hnext; reflexivity.
    + destruct (release_raises _); [absurd_outcome |].
      cbn [Z.eqb]. apply Hnext; reflexivity.
Qed.

Lemma selectCamera_releases_what_it_opens_witness :
  (releases (calls (snd (select_from Sample.calm (range 10)
                           (set_stdin ["n"; "no"; "yes"] Sample.empty_folder))))
   + opened (set_stdin ["n"; "no"; "yes"] Sample.empty_folder)
   = releases (calls (set_stdin ["n"; "no"; "yes"] Sample.empty_folder))
     + opened (snd (select_from Sample.calm (range 10)
                      (set_stdin ["n"; "no"; "yes"] Sample.empty_folder))))%nat.
Proof.
  apply (selectCamera_releases_what_it_opens Sample.calm (range 10)
           (set_stdin ["n"; "no"; "yes"] Sample.empty_folder) 2).
  vm_compute. reflexivity.
Defined.

Lemma select_from_blind (E : env) (indices : list Z) :
  (forall i n, read (VideoCapture E (CamIndex i) n) = None) ->
  (forall i n, release_raises (VideoCapture E (CamIndex i) n) = false) ->
  forall w,
    fst (select_from E indices w) = Ok (-1)
    /\ stdin (snd (select_from E indices w)) = stdin w
    /\ opened (snd (select_from E indices w)) = (opened w + List.length indices)%nat.
Proof.
  intros Hrd Hrel. induction indices as [| a rest IH]; intros w.
  - cbn. repeat split. lia.
  - run_select. rewrite Hrd, Hrel. settle. rewrite Z.eqb_refl. cbv beta iota.
    match goal with
    | |- context [select_from E rest ?w1] =>
        destruct (IH w1) as (H1 & H2 & H3); rewrite H1, H2, H3
    end.
    cbn. repeat split. lia.
Qed.

(** X14: when none of the ten candidates yields a frame, the selection
    probes all ten, never asks the operator (the input is left untouched),
    and returns -1. *)
Theorem selectCamera_without_frames (E : env) (name : json) (w : world) :
  (forall i n, read (VideoCapture E (CamIndex i) n) = None) ->
  (forall i n, release_raises (VideoCapture E (CamIndex i) n) = false) ->
  fst (selectCamera E name w) = Ok (-1)
  /\ stdin (snd (selectCamera E name w)) = stdin w
  /\ opened (snd (selectCamera E name w)) = (opened w + 10)%nat.
Proof.
  intros Hrd Hrel. exact (select_from_blind E (range 10) Hrd Hrel w).
Qed.

Lemma selectCamera_without_frames_witness :
  fst (selectCamera no_camera (JStr "printer") (set_stdin ["yes"] Sample.empty_folder))
  = Ok (-1)
  /\ stdin (snd (selectCamera no_camera (JStr "printer")
                   (set_stdin ["yes"] Sample.empty_folder)))
     = stdin (set_stdin ["yes"] Sample.empty_folder)
  /\ opened (snd (selectCamera no_camera (JStr "printer")
                    (set_stdin ["yes"] Sample.empty_folder)))
     = (opened (set_stdin ["yes"] Sample.empty_folder) + 10)%nat.
Proof.
  apply (selectCamera_without_frames no_camera (JStr "printer")
           (set_stdin ["yes"] Sample.empty_folder)); intros i n; reflexivity.
Defined.

(** X15: when the first candidate yields a frame and the input ends before
    a valid answer is typed (as when the script runs without a console),
    [input] raises [EOFError] inside the confirmation loop: the selection
    ends with it, and the handle it had opened is not released. *)
Theorem selectCamera_end_of_input (E : env) (name : json) (w : world) (frame : image) :
  read (VideoCapture E (CamIndex 0) (opened w)) = Some frame ->
  fst (answer (stdin w)) = Raise EOFError ->
  fst (selectCamera E name w) = Raise EOFError
  /\ calls (snd (selectCamera E name w))
     = CallRead :: CallVideoCapture (CamIndex 0) :: calls w.
Proof.
  intros Hrd Hans. unfold selectCamera. cbn [range seq map Z.of_nat].
  run_select. rewrite Hrd. settle.
  destruct (answer (stdin w)) as [[b | e] lines]; cbn [fst] in Hans; [discriminate |].
  inversion Hans. split; reflexivity.
Qed.

Lemma selectCamera_end_of_input_witness :
  fst (selectCamera Sample.calm (JStr "printer")
         (set_stdin ["maybe"; ""] Sample.empty_folder)) = Raise EOFError
  /\ calls (snd (selectCamera Sample.calm (JStr "printer")
                   (set_stdin ["maybe"; ""] Sample.empty_folder)))
     = CallRead :: CallVideoCapture (CamIndex 0)
       :: calls (set_stdin ["maybe"; ""] Sample.empty_folder).
Proof.
  apply (selectCamera_end_of_input Sample.calm (JStr "printer")
           (set_stdin ["maybe"; ""] Sample.empty_folder) (Frame 0)); reflexivity.
Defined.

(** X16: the first confirmed candidate wins.  When a candidate yields a
    frame, the operator's first valid answer is yes and the release
    succeeds, the selection returns that index at once: no later candidate
    is opened, and the input is consumed up to that answer only. *)
Theorem select_from_first_confirmed
        (E : env) (a : Z) (rest : list Z) (w : world) (frame : image) (lines : list string) :
  a <> -1 ->
  read (VideoCapture E (CamIndex a) (opened w)) = Some frame ->
  answer (stdin w) = (Ok true, lines) ->
  release_raises (VideoCapture E (CamIndex a) (opened w)) = false ->
  fst (select_from E (a :: rest) w) = Ok a
  /\ opened (snd (select_from E (a :: rest) w)) = S (opened w)
  /\ stdin (snd (select_from E (a :: rest) w)) = lines.
Proof.
  intros Ha Hrd Hans Hrel. run_select. rewrite Hrd. settle. rewrite Hans, Hrel.
  apply Z.eqb_neq in Ha. settle. rewrite Ha. repeat split.
Qed.

Lemma select_from_first_confirmed_witness :
  fst (select_from Sample.calm (range 10)
         (set_stdin ["what?"; " Yes "; "n"] Sample.empty_folder)) = Ok 0
  /\ opened (snd (select_from Sample.calm (range 10)
                    (set_stdin ["what?"; " Yes "; "n"] Sample.empty_folder)))
     = S (opened (set_stdin ["what?"; " Yes "; "n"] Sample.empty_folder))
  /\ stdin (snd (select_from Sample.calm (range 10)
                   (set_stdin ["what?"; " Yes "; "n"] Sample.empty_folder)))
     = ["n"].
Proof.
  apply (select_from_first_confirmed Sample.calm 0 (map Z.of_nat (seq 1 9))
           (set_stdin ["what?"; " Yes "; "n"] Sample.empty_folder) (Frame 0) ["n"]).
  - lia.
  - reflexivity.
  - reflexivity.
  - reflexivity.
Defined.

(** ** Startup *)

(** X17: a fingerprint of fewer than 16 characters stops startup, on the
    command line and in the configuration file alike, before anything
    outside the process is touched: the folder is not created, no camera is
    opened, no status query is issued. *)
Theorem short_fingerprint_stops_startup
        (E : env) (args : cli_args) (members : list (string * json)) (f : string)
        (fuel : nat) (w : world) :
  (String.length f < 16)%nat ->
  arg_fingerprint args = Some f ->
  dict_get "fingerprint" members = Some (JStr f) ->
  (exists e, main_cli E args fuel w = (Raise e, w))
  /\ (exists e, main_json E (JObj members) fuel w = (Raise e, w)).
Proof.
  intros Hlen Hcli Hjson.
  assert (Hlt : (Z.of_nat (String.length f) <? 16) = true) by (apply Z.ltb_lt; lia).
  split.
  - unfold main_cli, startup_cli, bind, lift.
    destruct (and_then (py_int (arg_rotate args)) cli_rotation) as [rot | e];
      [| exists e; reflexivity].
    rewrite Hcli. cbn [required]. unfold check_fingerprint. rewrite Hlt.
    exists ValueError. reflexivity.
  - unfold main_json, startup_json, bind, lift, getitem.
    destruct (dict_get "token" members); [| eexists; reflexivity].
    destruct (dict_get "name" members); [| eexists; reflexivity].
    rewrite Hjson. cbn [and_then as_str]. unfold check_fingerprint. rewrite Hlt.
    exists ValueError. reflexivity.
Qed.

Lemma short_fingerprint_stops_startup_witness :
  (exists e,
      main_cli Sample.calm
        (mkArgs (Some "token") "printer" (Some "tooshort") (Some "192.168.0.10") (Some "key")
           (Some "/imgs") (IntText 500) (IntText 0) None)
        3 Sample.empty_folder
      = (Raise e, Sample.empty_folder))
  /\ (exists e,
         main_json Sample.calm
           (JObj [("token", JStr "token"); ("name", JStr "printer");
                  ("fingerprint", JStr "tooshort")])
           3 Sample.empty_folder
         = (Raise e, Sample.empty_folder)).
Proof.
  apply (short_fingerprint_stops_startup Sample.calm
           (mkArgs (Some "token") "printer" (Some "tooshort") (Some "192.168.0.10")
              (Some "key") (Some "/imgs") (IntText 500) (IntText 0) None)
           [("token", JStr "token"); ("name", JStr "printer");
            ("fingerprint", JStr "tooshort")]
           "tooshort" 3 Sample.empty_folder).
  - simpl. lia.
  - reflexivity.
  - reflexivity.
Defined.

(** X18: a rotation below 2^53 in size that is not a multiple of 90 stops
    the command-line startup with [TypeError]; it is the first thing
    checked, so nothing else has happened by then.  The bound is where the
    [float]s of lines 228 and 229 still tell integers apart. *)
Theorem non_multiple_rotation_stops_cli
        (E : env) (args : cli_args) (r : Z) (fuel : nat) (w : world) :
  arg_rotate args = IntText r ->
  Z.abs r < 2 ^ 53 ->
  Z.rem r 90 <> 0 ->
  main_cli E args fuel w = (Raise TypeError, w).
Proof.
  intros Hrot Hsmall Hrem. unfold main_cli, startup_cli, bind, lift.
  rewrite Hrot. cbn [py_int and_then]. unfold cli_rotation.
  rewrite (float_text_small r Hsmall), (rotation_not_multiple r Hsmall Hrem). reflexivity.
Qed.

Lemma non_multiple_rotation_stops_cli_witness :
  main_cli Sample.calm
    (mkArgs (Some "token") "printer" (Some Sample.fp) (Some "192.168.0.10") (Some "key")
       (Some "/imgs") (IntText 500) (IntText 45) None)
    3 Sample.empty_folder
  = (Raise TypeError, Sample.empty_folder).
Proof.
  apply (non_multiple_rotation_stops_cli Sample.calm
           (mkArgs (Some "token") "printer" (Some Sample.fp) (Some "192.168.0.10")
              (Some "key") (Some "/imgs") (IntText 500) (IntText 45) None)
           45 3 Sample.empty_folder).
  - reflexivity.
  - vm_compute. reflexivity.
  - vm_compute. intros H. discriminate H.
Defined.

(** Beyond the bound the two tests are no longer tests on integers: 2^59
    is no multiple of 90, yet both tests hold and the index is far outside
    the list; 90 * (2^53 + 1) is a multiple of 90, and line 228 rejects
    it, where a configuration file would reach the list. *)
Example rotation_beyond_float_precision :
  Z.rem (2 ^ 59) 90 <> 0
  /\ cli_rotation (2 ^ 59) = Raise IndexError
  /\ Z.rem (90 * (2 ^ 53 + 1)) 90 = 0
  /\ cli_rotation (90 * (2 ^ 53 + 1)) = Raise TypeError
  /\ parse_rotation (90 * (2 ^ 53 + 1)) = Raise IndexError.
Proof.
  split; [vm_compute; intros H; discriminate H |].
  repeat split; vm_compute; reflexivity.
Qed.

(** The command-line startup up to the image folder, for arguments that
    pass the checks before it. *)
Lemma startup_cli_to_folder
      (E : env) (args : cli_args) (w : world)
      (r m : Z) (rot : option rotate_code) (f d : string) :
  arg_rotate args = IntText r ->
  parse_rotation r = Ok rot ->
  arg_fingerprint args = Some f ->
  (16 <= String.length f)%nat ->
  arg_directory args = Some d ->
  arg_maximages args = IntText m ->
  startup_cli E args w
  = bind ensure_folder
      (fun _ =>
         bind (match arg_camera args with
               | None => bind (selectCamera E (JStr (arg_name args)))
                              (fun i => ret (CamIndex i))
               | Some c => if verifyCamera E (JStr c) then ret (CamPath c)
                           else raise ConnectionError
               end)
              (fun camera_id => ret (mkSettings f d rot (JInt m) camera_id))) w.
Proof.
  intros Hrot Hparse Hfp Hlen Hdir Hmax.
  assert (Hlt : (Z.of_nat (String.length f) <? 16) = false) by (apply Z.ltb_ge; lia).
  unfold startup_cli. unfold bind at 1, lift. rewrite Hrot. cbn [py_int and_then].
  rewrite (cli_rotation_accepts r rot Hparse). unfold bind at 1. rewrite Hfp. cbn [required].
  unfold bind at 1, check_fingerprint. rewrite Hlt. unfold ret at 1.
  unfold bind at 1. rewrite Hdir. cbn [required].
  unfold bind at 1. rewrite Hmax. cbn [py_int]. reflexivity.
Qed.

(** X19: when the image folder's path is taken by a regular file, the
    command-line startup ends with [FileExistsError]: nothing is created,
    no camera is opened and no status query is issued. *)
Theorem folder_taken_by_file_stops_cli
        (E : env) (args : cli_args) (fuel : nat) (w : world)
        (r m : Z) (rot : option rotate_code) (f d : string) :
  arg_rotate args = IntText r ->
  parse_rotation r = Ok rot ->
  arg_fingerprint args = Some f ->
  (16 <= String.length f)%nat ->
  arg_directory args = Some d ->
  arg_maximages args = IntText m ->
  folder w = RegularFile ->
  main_cli E args fuel w = (Raise FileExistsError, w).
Proof.
  intros Hrot Hparse Hfp Hlen Hdir Hmax Hfile. unfold main_cli. unfold bind at 1.
  rewrite (startup_cli_to_folder E args w r m rot f d) by assumption.
  unfold bind at 1, ensure_folder. rewrite Hfile. reflexivity.
Qed.

Lemma folder_taken_by_file_stops_cli_witness :
  main_cli Sample.calm Sample.args 3 (set_folder RegularFile Sample.empty_folder)
  = (Raise FileExistsError, set_folder RegularFile Sample.empty_folder).
Proof.
  apply (folder_taken_by_file_stops_cli Sample.calm Sample.args 3
           (set_folder RegularFile Sample.empty_folder) 0 500 None Sample.fp "/imgs").
  - reflexivity.
  - reflexivity.
  - reflexivity.
  - simpl. lia.
  - reflexivity.
  - reflexivity.
  - reflexivity.
Defined.

(** X20: a camera given on the command line that fails verification stops
    startup with [ConnectionError] before any status query and before any
    camera is opened; the image folder has been dealt with by then, so a
    missing folder has already been created. *)
Theorem unverified_camera_stops_cli
        (E : env) (args : cli_args) (fuel : nat) (w : world)
        (r m : Z) (rot : option rotate_code) (f d c : string) :
  arg_rotate args = IntText r ->
  parse_rotation r = Ok rot ->
  arg_fingerprint args = Some f ->
  (16 <= String.length f)%nat ->
  arg_directory args = Some d ->
  arg_maximages args = IntText m ->
  folder w <> RegularFile ->
  arg_camera args = Some c ->
  verifyCamera E (JStr c) = false ->
  main_cli E args fuel w = (Raise ConnectionError, snd (ensure_folder w))
  /\ queried (snd (ensure_folder w)) = queried w
  /\ opened (snd (ensure_folder w)) = opened w
  /\ folder (snd (ensure_folder w)) = Directory.
Proof.
  intros Hrot Hparse Hfp Hlen Hdir Hmax Hfolder Hcam Hver. unfold main_cli. unfold bind at 1.
  rewrite (startup_cli_to_folder E args w r m rot f d) by assumption.
  unfold bind at 1. unfold ensure_folder.
  destruct (folder w) eqn:Hk; [| contradiction |];
    unfold bind at 1; rewrite Hcam, Hver; cbn; rewrite ?Hk; repeat split.
Qed.

Lemma unverified_camera_stops_cli_witness :
  main_cli (mkEnv (VideoCapture Sample.calm) (status_reply Sample.calm)
              (put_reply Sample.calm) (strftime Sample.calm) (fun _ => false))
    (mkArgs (Some "token") "printer" (Some Sample.fp) (Some "192.168.0.10") (Some "key")
       (Some "/imgs") (IntText 500) (IntText 0) (Some "usb-cam"))
    3 (set_folder Missing Sample.empty_folder)
  = (Raise ConnectionError, snd (ensure_folder (set_folder Missing Sample.empty_folder)))
  /\ queried (snd (ensure_folder (set_folder Missing Sample.empty_folder)))
     = queried (set_folder Missing Sample.empty_folder)
  /\ opened (snd (ensure_folder (set_folder Missing Sample.empty_folder)))
     = opened (set_folder Missing Sample.empty_folder)
  /\ folder (snd (ensure_folder (set_folder Missing Sample.empty_folder))) = Directory.
Proof.
  apply (unverified_camera_stops_cli
           (mkEnv (VideoCapture Sample.calm) (status_reply Sample.calm)
              (put_reply Sample.calm) (strftime Sample.calm) (fun _ => false))
           (mkArgs (Some "token") "printer" (Some Sample.fp) (Some "192.168.0.10")
              (Some "key") (Some "/imgs") (IntText 500) (IntText 0) (Some "usb-cam"))
           3 (set_folder Missing Sample.empty_folder) 0 500 None Sample.fp "/imgs"
           "usb-cam").
  - reflexivity.
  - reflexivity.
  - reflexivity.
  - simpl. lia.
  - reflexivity.
  - reflexivity.
  - discriminate.
  - reflexivity.
  - reflexivity.
Defined.

(** X21: a camera given on the command line that passes verification.
    Startup ends normally with the fingerprint, folder, rotation and cap as
    given and the camera's text as it was typed; the only thing done to the
    world is the creation of the image folder when it was missing. *)
Theorem verified_camera_starts_cli
        (E : env) (args : cli_args) (w : world)
        (r m : Z) (rot : option rotate_code) (f d c : string) :
  arg_rotate args = IntText r ->
  parse_rotation r = Ok rot ->
  arg_fingerprint args = Some f ->
  (16 <= String.length f)%nat ->
  arg_directory args = Some d ->
  arg_maximages args = IntText m ->
  folder w <> RegularFile ->
  arg_camera args = Some c ->
  verifyCamera E (JStr c) = true ->
  startup_cli E args w
  = (Ok (mkSettings f d rot (JInt m) (CamPath c)),
     match folder w with
     | Missing => log CallMkdir (set_folder Directory w)
     | _ => w
     end).
Proof.
  intros Hrot Hparse Hfp Hlen Hdir Hmax Hfolder Hcam Hver.
  rewrite (startup_cli_to_folder E args w r m rot f d) by assumption.
  unfold bind at 1. unfold ensure_folder.
  destruct (folder w) eqn:Hk; [| contradiction |];
    unfold bind at 1; rewrite Hcam, Hver; reflexivity.
Qed.

Lemma verified_camera_starts_cli_witness :
  startup_cli Sample.calm
    (mkArgs (Some "token") "printer" (Some Sample.fp) (Some "192.168.0.10") (Some "key")
       (Some "/imgs") (IntText 20) (IntText (-90)) (Some "usb-cam"))
    (set_folder Missing Sample.empty_folder)
  = (Ok (mkSettings Sample.fp "/imgs" (Some ROTATE_90_COUNTERCLOCKWISE) (JInt 20)
           (CamPath "usb-cam")),
     match folder (set_folder Missing Sample.empty_folder) with
     | Missing => log CallMkdir (set_folder Directory (set_folder Missing Sample.empty_folder))
     | _ => set_folder Missing Sample.empty_folder
     end).
Proof.
  apply (verified_camera_starts_cli Sample.calm
           (mkArgs (Some "token") "printer" (Some Sample.fp) (Some "192.168.0.10")
              (Some "key") (Some "/imgs") (IntText 20) (IntText (-90)) (Some "usb-cam"))
           (set_folder Missing Sample.empty_folder) (-90) 20
           (Some ROTATE_90_COUNTERCLOCKWISE) Sample.fp "/imgs" "usb-cam").
  - reflexivity.
  - reflexivity.
  - reflexivity.
  - simpl. lia.
  - reflexivity.
  - reflexivity.
  - discriminate.
  - reflexivity.
  - reflexivity.
Defined.

(** X22: what a configuration file may leave out, and what it changes.
    Without ["rotate"] the image is not rotated, without ["maximages"] the
    cap is 500; and a camera named in the file is used under
    [/dev/v4l/by-id/], where the same name on the command line is used as
    it is. *)
Theorem config_file_defaults
        (E : env) (members : list (string * json)) (w : world)
        (t n i k : json) (f d c : string) :
  dict_get "token" members = Some t ->
  dict_get "name" members = Some n ->
  dict_get "fingerprint" members = Some (JStr f) ->
  (16 <= String.length f)%nat ->
  dict_get "ip" members = Some i ->
  dict_get "apikey" members = Some k ->
  dict_get "directory" members = Some (JStr d) ->
  dict_get "rotate" members = None ->
  dict_get "maximages" members = None ->
  dict_get "camera" members = Some (JStr c) ->
  verifyCamera E (JStr c) = true ->
  folder w = Directory ->
  startup_json E (JObj members) w
  = (Ok (mkSettings f d None (JInt 500) (CamPath ("/dev/v4l/by-id/" ++ c))), w).
Proof.
  intros Ht Hn Hf Hlen Hi Hk Hd Hr Hm Hc Hver Hdir.
  assert (Hlt : (Z.of_nat (String.length f) <? 16) = false) by (apply Z.ltb_ge; lia).
  unfold startup_json, bind, lift, getitem, check_fingerprint, ensure_folder.
  rewrite Ht, Hn, Hf. cbn [and_then as_str]. rewrite Hlt. unfold ret at 1.
  rewrite Hi, Hk, Hd. cbn [and_then as_str or_on_KeyError].
  rewrite Hr, Hm, Hc. cbn [and_then as_str or_on_KeyError]. unfold ret at 1 2.
  rewrite Hdir, Hver. reflexivity.
Qed.

Lemma config_file_defaults_witness :
  startup_json Sample.calm
    (JObj [("token", JStr "token"); ("name", JStr "printer"); ("fingerprint", JStr Sample.fp);
           ("ip", JStr "192.168.0.10"); ("apikey", JStr "key"); ("directory", JStr "/imgs");
           ("camera", JStr "usb-cam")])
    Sample.empty_folder
  = (Ok (mkSettings Sample.fp "/imgs" None (JInt 500) (CamPath ("/dev/v4l/by-id/" ++ "usb-cam"))),
     Sample.empty_folder).
Proof.
  apply (config_file_defaults Sample.calm
           [("token", JStr "token"); ("name", JStr "printer"); ("fingerprint", JStr Sample.fp);
            ("ip", JStr "192.168.0.10"); ("apikey", JStr "key"); ("directory", JStr "/imgs");
            ("camera", JStr "usb-cam")]
           Sample.empty_folder (JStr "token") (JStr "printer") (JStr "192.168.0.10")
           (JStr "key") Sample.fp "/imgs" "usb-cam").
  - reflexivity.
  - reflexivity.
  - reflexivity.
  - simpl. lia.
  - reflexivity.
  - reflexivity.
  - reflexivity.
  - reflexivity.
  - reflexivity.
  - reflexivity.
  - reflexivity.
  - reflexivity.
Defined.

(** X23: from one full turn back to three quarter turns forward, a
    multiple of 90 is accepted and gives the rotation the angle stands
    for: none for 0 and -360, a quarter turn clockwise for 90 and -270, a
    half turn for 180 and -180, a quarter turn counterclockwise for 270 and
    -90. *)
Theorem rotation_in_list_is_the_angle (r : Z) :
  Z.rem r 90 = 0 ->
  -360 <= r <= 270 ->
  parse_rotation r = Ok (expected_rotation r)
  /\ (expected_rotation r = None <-> r = 0 \/ r = -360)
  /\ (expected_rotation r = Some ROTATE_90_CLOCKWISE <-> r = 90 \/ r = -270)
  /\ (expected_rotation r = Some ROTATE_180 <-> r = 180 \/ r = -180)
  /\ (expected_rotation r = Some ROTATE_90_COUNTERCLOCKWISE <-> r = 270 \/ r = -90).
Proof.
  intros Hrem Hrange. split; [now apply rotation_within_list |].
  pose proof (multiple_of_90 r Hrem) as Hr.
  assert (Hq : Z.quot r 90 = -4 \/ Z.quot r 90 = -3 \/ Z.quot r 90 = -2 \/ Z.quot r 90 = -1
               \/ Z.quot r 90 = 0 \/ Z.quot r 90 = 1 \/ Z.quot r 90 = 2 \/ Z.quot r 90 = 3)
    by lia.
  destruct Hq as [Hq | [Hq | [Hq | [Hq | [Hq | [Hq | [Hq | Hq]]]]]]];
    rewrite Hq in Hr; subst r; cbn;
    repeat split; intros; try discriminate; try lia; try reflexivity.
Qed.

Lemma rotation_in_list_is_the_angle_witness :
  parse_rotation (-90) = Ok (expected_rotation (-90))
  /\ (expected_rotation (-90) = None <-> -90 = 0 \/ -90 = -360)
  /\ (expected_rotation (-90) = Some ROTATE_90_CLOCKWISE <-> -90 = 90 \/ -90 = -270)
  /\ (expected_rotation (-90) = Some ROTATE_180 <-> -90 = 180 \/ -90 = -180)
  /\ (expected_rotation (-90) = Some ROTATE_90_COUNTERCLOCKWISE <-> -90 = 270 \/ -90 = -90).
Proof.
  apply (rotation_in_list_is_the_angle (-90)).
  - reflexivity.
  - lia.
Defined.
